(** * Task tracker: the session gate and the task-list synchronizer

    A shallow embedding of the three React components of the repository
    ([App], [Auth], [TodoApp]) and of the properties its specification
    states about them.

    - JavaScript strings are sequences of UTF-16 code units, so that
      [String.prototype.trim] can be written out with the white-space table
      of ECMAScript.
    - JavaScript numbers are binary64 floats: row ids, which are integers,
      are [Z]; the percentage, which is computed with [/] and [*], is a
      primitive float of Rocq (also binary64).
    - A component's state is a record with one field per [useState] cell.
    - An [async] handler runs in two phases: the synchronous prefix up to
      its [await], and the continuation that runs once the backend has
      answered.  The continuation is a closure over the values of the
      render the handler was called from, exactly as in the source. *)

From Stdlib Require Import ZArith NArith Bool List Lia String Ascii.
From Stdlib Require Import PrimFloat Uint63.
From Stdlib Require Import DecimalString.
Import ListNotations.

(* ===================================================================== *)
(** ** JavaScript strings *)
(* ===================================================================== *)

Module JS.

Definition code_unit := N.
Definition str := list code_unit.

(** A string literal of the source (ASCII only). *)
Definition lit (s : string) : str :=
  List.map N_of_ascii (list_ascii_of_string s).

(** [!!s]: the empty string is the only falsy string. *)
Definition truthy (s : str) : bool :=
  match s with
  | [] => false
  | _ :: _ => true
  end.

(** The code units [trim] strips: ECMAScript's WhiteSpace (TAB, VT, FF,
    SP, NBSP, ZWNBSP and the Unicode space separators) and
    LineTerminator (LF, CR, LS, PS). *)
Definition is_white_space (c : code_unit) : bool :=
  ((c =? 0x0009) || (c =? 0x000A) || (c =? 0x000B) || (c =? 0x000C)
   || (c =? 0x000D) || (c =? 0x0020) || (c =? 0x00A0) || (c =? 0x1680)
   || ((0x2000 <=? c) && (c <=? 0x200A))
   || (c =? 0x2028) || (c =? 0x2029) || (c =? 0x202F) || (c =? 0x205F)
   || (c =? 0x3000) || (c =? 0xFEFF))%N.

Fixpoint trimStart (s : str) : str :=
  match s with
  | [] => []
  | c :: rest => if is_white_space c then trimStart rest else s
  end.

Definition trimEnd (s : str) : str := rev (trimStart (rev s)).

Definition trim (s : str) : str := trimEnd (trimStart s).

(** "Empty or white-space only". *)
Definition blank (s : str) : Prop := Forall (fun c => is_white_space c = true) s.

(** What a [catch] clause can receive: any value.  The handlers only ask
    whether it is an [Error] and, if so, read its [message]. *)
Record thrown := Thrown { instanceof_Error : bool; message : str }.

End JS.

Import JS.

(* ===================================================================== *)
(** ** Asynchronous handlers *)
(* ===================================================================== *)

(** What an awaited backend call settles to: the [{ data, error }] object
    of the client library, or a rejection. *)
Inductive settled (A : Type) : Type :=
| Reply (data : option A) (error : option thrown)
| Rejects (e : thrown).

Arguments Reply {A} data error.
Arguments Rejects {A} e.

(** The value that reaches the [catch] block after
    [const { data, error } = await ...; if (error) throw error]. *)
Definition failure {A} (r : settled A) : option thrown :=
  match r with
  | Reply _ (Some e) => Some e
  | Reply _ None => None
  | Rejects e => Some e
  end.

Definition failed {A} (r : settled A) : Prop := failure r <> None.

Section Async.

Variable State : Type.
Variable request : Type -> Type.

(** A handler either returns without awaiting anything, or leaves the
    state [st] behind, issues [req] and suspends; [k answer current] is
    the state it writes when it resumes in state [current]. *)
Inductive handler : Type :=
| Done (st : State)
| Await (A : Type) (st : State) (req : request A)
        (k : settled A -> State -> State).

Arguments Await {A} st req k.

(** The backend, as far as one call is concerned. *)
Definition backend := forall A, request A -> settled A.

(** State right after the synchronous prefix, while a request (if any)
    is in flight. *)
Definition now (h : handler) : State :=
  match h with
  | Done st => st
  | Await st _ _ => st
  end.

(** Requests issued. *)
Definition issued (h : handler) : list { A : Type & request A } :=
  match h with
  | Done _ => []
  | Await _ req _ => [existT _ _ req]
  end.

(** The handler resumes in state [current] (other events may have been
    handled since it suspended). *)
Definition settle (b : backend) (h : handler) (current : State) : State :=
  match h with
  | Done _ => current
  | Await _ req k => k (b _ req) current
  end.

(** No other event between the call and the answer. *)
Definition run (b : backend) (h : handler) : State := settle b h (now h).

(** The value the awaited call hands to the [catch] block, if any. *)
Definition thrown_by (b : backend) (h : handler) : option thrown :=
  match h with
  | Done _ => None
  | Await _ req _ => failure (b _ req)
  end.

(** The awaited call fails: its reply carries an error, or it rejects. *)
Definition fails (b : backend) (h : handler) : Prop :=
  match h with
  | Done _ => False
  | Await _ req _ => failed (b _ req)
  end.

Definition succeeds (b : backend) (h : handler) : Prop :=
  match h with
  | Done _ => False
  | Await _ req _ => failure (b _ req) = None
  end.

End Async.

Arguments Done {State request} st.
Arguments Await {State request A} st req k.
Arguments now {State request} h.
Arguments issued {State request} h.
Arguments settle {State request} b h current.
Arguments run {State request} b h.
Arguments thrown_by {State request} b h.
Arguments fails {State request} b h.
Arguments succeeds {State request} b h.

(* ===================================================================== *)
(** ** The task view ([TodoApp]) *)
(* ===================================================================== *)

(** Modelled from the spec: the row type
    [Database["public"]["Tables"]["todos"]["Row"]] is declared in
    [types/database.types], which is not among the sources.  The fields are
    those of the Task of the data model, under the column names the
    component uses. *)
Module Todo.
Record t := Row {
  id : Z;
  user_id : str;
  task : str;
  completed : bool;
  created_at : str
}.
End Todo.

Module TodoApp.

(** [useState] cells of the component. *)
Record State := mkState {
  tasks : list Todo.t;
  newTask : str;
  loading : bool;
  error : str
}.

Definition setTasks (v : list Todo.t) (st : State) : State :=
  {| tasks := v; newTask := newTask st; loading := loading st; error := error st |}.
Definition setNewTask (v : str) (st : State) : State :=
  {| tasks := tasks st; newTask := v; loading := loading st; error := error st |}.
Definition setLoading (v : bool) (st : State) : State :=
  {| tasks := tasks st; newTask := newTask st; loading := v; error := error st |}.
Definition setError (v : str) (st : State) : State :=
  {| tasks := tasks st; newTask := newTask st; loading := loading st; error := v |}.

(** Initial values of the cells. *)
Definition initial : State :=
  {| tasks := []; newTask := []; loading := true; error := [] |}.

(** The four calls on [supabase.from("todos")], indexed by the type of
    their [data]. *)
Inductive request : Type -> Type :=
| SelectTodos (user_id : str) : request (list Todo.t)
    (* .select("*").eq("user_id", _).order("created_at", descending) *)
| InsertTodo (task : str) (user_id : str) (completed : bool) : request Todo.t
    (* .insert([{ task, user_id, completed }]).select().single() *)
| UpdateCompleted (id : Z) (completed : bool) : request unit
    (* .update({ completed }).eq("id", _) *)
| DeleteTodo (id : Z) : request unit.
    (* .delete().eq("id", _) *)

(** [catch (error) { if (error instanceof Error) setError(error.message) }] *)
Definition report (e : thrown) (st : State) : State :=
  if instanceof_Error e then setError (message e) st else st.

(** [{ ...task, completed: c }] *)
Definition with_completed (c : bool) (task : Todo.t) : Todo.t :=
  {| Todo.id := Todo.id task;
     Todo.user_id := Todo.user_id task;
     Todo.task := Todo.task task;
     Todo.completed := c;
     Todo.created_at := Todo.created_at task |}.

Section Handlers.

(** [session.user.id] *)
Variable session_user_id : str.

Definition loadTasks (st : State) : handler State request :=
  Await (setError [] st) (SelectTodos session_user_id)
    (fun r current =>
       setLoading false
         match r with
         | Reply data None =>
             setTasks (match data with Some rows => rows | None => [] end) current
         | Reply _ (Some e) | Rejects e => report e current
         end).

Definition addTask (st : State) : handler State request :=
  let trimmedTask := trim (newTask st) in
  if negb (truthy trimmedTask) then Done st
  else
    Await (setError [] st) (InsertTodo trimmedTask session_user_id false)
      (fun r current =>
         match r with
         | Reply data None =>
             match data with
             | Some row => setNewTask [] (setTasks (row :: tasks st) current)
             | None => current
             end
         | Reply _ (Some e) | Rejects e => report e current
         end).

Definition toggleTask (id : Z) (currentCompleted : bool) (st : State)
  : handler State request :=
  Await (setError [] st) (UpdateCompleted id (negb currentCompleted))
    (fun r current =>
       match r with
       | Reply _ None =>
           setTasks
             (map (fun task =>
                     if (Todo.id task =? id)%Z
                     then with_completed (negb currentCompleted) task
                     else task)
                  (tasks st))
             current
       | Reply _ (Some e) | Rejects e => report e current
       end).

Definition deleteTask (id : Z) (st : State) : handler State request :=
  let originalTasks := tasks st in
  Await
    (setError []
       (setTasks (filter (fun task => negb (Todo.id task =? id)%Z) (tasks st)) st))
    (DeleteTodo id)
    (fun r current =>
       match r with
       | Reply _ None => current
       | Reply _ (Some e) | Rejects e => report e (setTasks originalTasks current)
       end).

(** [handleInputChange] *)
Definition handleInputChange (value : str) (st : State) : State :=
  setNewTask value st.

(** What the user (or the mount effect) can start: the wiring of the
    markup.  The checkbox of a row calls
    [toggleTask(task.id, task.completed)], its button
    [deleteTask(task.id)]. *)
Inductive action :=
| Mount
| Submit
| Tick (id : Z) (completed : bool)
| ClickDelete (id : Z).

Definition handle (a : action) (st : State) : handler State request :=
  match a with
  | Mount => loadTasks st
  | Submit => addTask st
  | Tick id completed => toggleTask id completed st
  | ClickDelete id => deleteTask id st
  end.

End Handlers.

(** *** Derived values of the render *)

(** An array length as a JavaScript number (exact: lengths are below
    2^32). *)
Definition of_length (n : nat) : float :=
  PrimFloat.of_uint63 (Uint63.of_Z (Z.of_nat n)).

Definition completedCount (ts : list Todo.t) : nat :=
  List.length (filter (fun t => Todo.completed t) ts).
Definition totalCount (ts : list Todo.t) : nat := List.length ts.

Definition completionPercentage (ts : list Todo.t) : float :=
  if (0 <? totalCount ts)%nat
  then PrimFloat.mul
         (PrimFloat.div (of_length (completedCount ts)) (of_length (totalCount ts)))
         100%float
  else 0%float.

(** *** Names for the callbacks and the invariant of the collection *)

(** The data model's invariant: ids are assigned by the store and unique. *)
Definition unique_ids (ts : list Todo.t) : Prop := NoDup (map Todo.id ts).

(** The callback [deleteTask] filters with. *)
Definition keeps (id : Z) (task : Todo.t) : bool := negb (Todo.id task =? id)%Z.

(** The callback [toggleTask] maps with. *)
Definition flip (id : Z) (currentCompleted : bool) (task : Todo.t) : Todo.t :=
  if (Todo.id task =? id)%Z
  then with_completed (negb currentCompleted) task
  else task.

(** The store keeps its side of that invariant when the rows of a select
    have distinct ids and the id it assigns to a created row is not among
    the rows [known] to the caller. *)
Definition assigns_fresh_ids (b : backend request) (known : list Todo.t) : Prop :=
  (forall u rows, b _ (SelectTodos u) = Reply (Some rows) None -> unique_ids rows)
  /\ (forall text u c row,
         b _ (InsertTodo text u c) = Reply (Some row) None ->
         ~ In (Todo.id row) (map Todo.id known)).

Definition is_delete (a : action) : bool :=
  match a with
  | ClickDelete _ => true
  | _ => false
  end.

(** The percentage as the specification words it,
    [100 * completedCount / totalCount] and 0 for the empty collection,
    read as a JavaScript expression. *)
Definition claimed_percentage (ts : list Todo.t) : float :=
  match ts with
  | [] => 0%float
  | _ :: _ =>
      PrimFloat.div
        (PrimFloat.mul 100%float (of_length (completedCount ts)))
        (of_length (totalCount ts))
  end.

End TodoApp.

(* ===================================================================== *)
(** ** The session gate ([App]) and the credential form ([Auth]) *)
(* ===================================================================== *)

(** Modelled from the spec: [Session] is a type of the client library; the
    components read nothing of it but [session.user.id]. *)
Module Session.
Record t := Make { user_id : str }.
End Session.

Module Auth.

(** [useState] cells of the form.  [alerts] is not a cell: it logs the
    calls of [alert], the one effect of the handler outside its state. *)
Record State := mkState {
  loading : bool;
  email : str;
  password : str;
  isSignUp : bool;
  error : str;
  alerts : list str
}.

Definition initial : State :=
  {| loading := false; email := []; password := []; isSignUp := false;
     error := []; alerts := [] |}.

Definition setLoading (v : bool) (st : State) : State :=
  {| loading := v; email := email st; password := password st;
     isSignUp := isSignUp st; error := error st; alerts := alerts st |}.
Definition setEmail (v : str) (st : State) : State :=
  {| loading := loading st; email := v; password := password st;
     isSignUp := isSignUp st; error := error st; alerts := alerts st |}.
Definition setPassword (v : str) (st : State) : State :=
  {| loading := loading st; email := email st; password := v;
     isSignUp := isSignUp st; error := error st; alerts := alerts st |}.
Definition setIsSignUp (v : bool) (st : State) : State :=
  {| loading := loading st; email := email st; password := password st;
     isSignUp := v; error := error st; alerts := alerts st |}.
Definition setError (v : str) (st : State) : State :=
  {| loading := loading st; email := email st; password := password st;
     isSignUp := isSignUp st; error := v; alerts := alerts st |}.
Definition alert (v : str) (st : State) : State :=
  {| loading := loading st; email := email st; password := password st;
     isSignUp := isSignUp st; error := error st; alerts := alerts st ++ [v] |}.

(** The two calls on [supabase.auth]; their [data] may carry a session,
    which the handler does not read. *)
Inductive request : Type -> Type :=
| SignUp (email password : str) : request Session.t
| SignInWithPassword (email password : str) : request Session.t.

Definition handleAuth (st : State) : handler State request :=
  let submit :=
    if isSignUp st
    then SignUp (email st) (password st)
    else SignInWithPassword (email st) (password st) in
  Await (setLoading true (setError [] st)) submit
    (fun r current =>
       setLoading false
         match r with
         | Reply _ None =>
             if isSignUp st
             then alert (lit "Success! Check your email to confirm your account.") current
             else current
         | Reply _ (Some e) | Rejects e =>
             if instanceof_Error e
             then setError (message e) current
             else setError (lit "An unexpected error occurred") current
         end).

Definition handleEmailChange (value : str) (st : State) : State := setEmail value st.
Definition handlePasswordChange (value : str) (st : State) : State := setPassword value st.
Definition toggleMode (st : State) : State := setError [] (setIsSignUp (negb (isSignUp st)) st).

End Auth.

Module App.

Record State := mkState {
  session : option Session.t;
  loading : bool
}.

Definition initial : State := {| session := None; loading := true |}.

Definition setSession (v : option Session.t) (st : State) : State :=
  {| session := v; loading := loading st |}.
Definition setLoading (v : bool) (st : State) : State :=
  {| session := session st; loading := v |}.

(** [supabase.auth.getSession().then(({ data: { session } }) => ...)] *)
Definition getSession_then (s : option Session.t) (st : State) : State :=
  setLoading false (setSession s st).

(** The callback registered with [supabase.auth.onAuthStateChange]. *)
Definition onAuthStateChange (s : option Session.t) (st : State) : State :=
  setSession s st.

(** What the component renders. *)
Inductive view :=
| LoadingView
| AuthView
| TodoAppView (s : Session.t).

Definition render (st : State) : view :=
  if loading st then LoadingView
  else match session st with
       | None => AuthView
       | Some s => TodoAppView s
       end.

End App.

(** The page: [App] and the [Auth] form it mounts without props. *)
Module Gate.

Record State := mkState {
  app : App.State;
  form : Auth.State
}.

Definition initial : State := {| app := App.initial; form := Auth.initial |}.

Inductive event :=
| SessionResolved (s : option Session.t)
    (* the promise of [getSession] resolves *)
| AuthStateChanged (s : option Session.t)
    (* the backend calls the listener *)
| CredentialsSubmitted (b : backend Auth.request)
    (* the form is submitted and the backend answers with [b] *)
| EmailChanged (value : str)
| PasswordChanged (value : str)
| ModeToggled
| SignOutClicked.
    (* [TodoApp.signOut]: awaits [supabase.auth.signOut()], writes nothing *)

Definition on_app (f : App.State -> App.State) (st : State) : State :=
  {| app := f (app st); form := form st |}.
Definition on_form (f : Auth.State -> Auth.State) (st : State) : State :=
  {| app := app st; form := f (form st) |}.

Definition step (e : event) (st : State) : State :=
  match e with
  | SessionResolved s => on_app (App.getSession_then s) st
  | AuthStateChanged s => on_app (App.onAuthStateChange s) st
  | CredentialsSubmitted b => on_form (fun f => run b (Auth.handleAuth f)) st
  | EmailChanged v => on_form (Auth.handleEmailChange v) st
  | PasswordChanged v => on_form (Auth.handlePasswordChange v) st
  | ModeToggled => on_form Auth.toggleMode st
  | SignOutClicked => st
  end.

(** The events the backend's auth client sends on its own. *)
Definition notification (e : event) : Prop :=
  match e with
  | SessionResolved _ | AuthStateChanged _ => True
  | _ => False
  end.

End Gate.

(** Events replayed in the order they arrive. *)
Definition replay (es : list Gate.event) (st : Gate.State) : Gate.State :=
  fold_left (fun s e => Gate.step e s) es st.

(** The session carried by the last notification among [es], [before] if
    there is none. *)
Definition last_notified (es : list Gate.event) (before : option Session.t)
  : option Session.t :=
  fold_left
    (fun s e =>
       match e with
       | Gate.SessionResolved s' | Gate.AuthStateChanged s' => s'
       | _ => s
       end)
    es before.

Definition session_resolved (e : Gate.event) : bool :=
  match e with
  | Gate.SessionResolved _ => true
  | _ => false
  end.

(* ===================================================================== *)
(** ** What the components render *)
(* ===================================================================== *)

(** The markup of [TodoApp], reduced to what it is filled with.  Texts
    made of strings and integers are built as the template builds them;
    the two places that print the percentage hold the number itself. *)
Module TodoView.

Import TodoApp.

(** [`${n}`] for an integer [n]. *)
Definition number_to_string (z : Z) : str :=
  lit (NilZero.string_of_int (Z.to_int z)).

(** One row of the list: the key, the checkbox with its handler, the
    text and whether it is struck through, the delete button's handler. *)
Record row := mkRow {
  key : Z;
  checked : bool;
  onChange : action;
  line_through : bool;
  text : str;
  onClick : action
}.

Definition row_of (task : Todo.t) : row :=
  {| key := Todo.id task;
     checked := Todo.completed task;
     onChange := Tick (Todo.id task) (Todo.completed task);
     line_through := Todo.completed task;
     text := Todo.task task;
     onClick := ClickDelete (Todo.id task) |}.

Inductive task_list :=
| EmptyState
| Rows (rows : list row).

Record page := mkPage {
  counter : str;
  badge : option float;
  notice : option str;
  bar : option float;
  input : str;
  listing : task_list;
  footer : option str
}.

Inductive view :=
| LoadingView
| Page (p : page).

(** U+1F389 as its surrogate pair. *)
Definition party_popper : str := [0xD83C; 0xDF89]%N.

Definition all_done : str := party_popper ++ lit " All tasks completed! Great job!".

(** [`Keep going! ${n} task${n !== 1 ? "s" : ""} remaining`] *)
Definition keep_going (n : Z) : str :=
  lit "Keep going! " ++ number_to_string n ++ lit " task"
  ++ (if negb (n =? 1)%Z then lit "s" else lit "") ++ lit " remaining".

Definition footer_text (completedCount totalCount : nat) : str :=
  if (completedCount =? totalCount)%nat then all_done
  else keep_going (Z.of_nat totalCount - Z.of_nat completedCount).

Definition render (st : State) : view :=
  if loading st then LoadingView
  else
    let completedCount := completedCount (tasks st) in
    let totalCount := totalCount (tasks st) in
    let completionPercentage := completionPercentage (tasks st) in
    Page
      {| counter := number_to_string (Z.of_nat completedCount) ++ lit " of "
                    ++ number_to_string (Z.of_nat totalCount) ++ lit " completed";
         badge := if (0 <? totalCount)%nat then Some completionPercentage else None;
         notice := if truthy (error st) then Some (error st) else None;
         bar := if (0 <? totalCount)%nat then Some completionPercentage else None;
         input := newTask st;
         listing := if (List.length (tasks st) =? 0)%nat then EmptyState
                 else Rows (map row_of (tasks st));
         footer := if (0 <? totalCount)%nat
                   then Some (footer_text completedCount totalCount)
                   else None |}.

(** The rows on a page; none in the empty state. *)
Definition shown_rows (p : page) : list row :=
  match listing p with
  | EmptyState => []
  | Rows rows => rows
  end.

(** A task the user still has to do. *)
Definition open (t : Todo.t) : bool := negb (Todo.completed t).

End TodoView.

(** The markup of [Auth]. *)
Module AuthView.

Import Auth.

Record view := mkView {
  title : str;
  subtitle : str;
  notice : option str;
  email_value : str;
  password_value : str;
  hint : option str;
  submit_disabled : bool;
  submit_label : str;
  toggle_label : str
}.

(** U+1F680 and U+1F44B as surrogate pairs. *)
Definition rocket : str := [0xD83D; 0xDE80]%N.
Definition waving_hand : str := [0xD83D; 0xDC4B]%N.

Definition render (st : State) : view :=
  {| title := if isSignUp st then rocket ++ lit " Create Account"
              else waving_hand ++ lit " Welcome Back";
     subtitle := if isSignUp st then lit "Start your productivity journey"
                 else lit "Sign in to continue";
     notice := if truthy (error st) then Some (error st) else None;
     email_value := email st;
     password_value := password st;
     hint := if isSignUp st then Some (lit "At least 6 characters") else None;
     submit_disabled := loading st;
     submit_label := if loading st then lit "Loading..."
                     else if isSignUp st then lit "Sign Up" else lit "Sign In";
     toggle_label := if isSignUp st then lit "Already have an account? Sign In"
                     else lit "Don't have an account? Sign Up" |}.

(** The two texts [handleAuth] produces itself. *)
Definition sign_up_alert : str :=
  lit "Success! Check your email to confirm your account.".

Definition fallback_notice : str := lit "An unexpected error occurred".

End AuthView.

(* ===================================================================== *)
(** ** The client module ([lib/supabase]) *)
(* ===================================================================== *)

Module Supabase.





End Supabase.

(* ===================================================================== *)
(** ** Sample data *)
(* ===================================================================== *)

Module Sample.

Definition user : str := lit "user-1".

Definition row (i : Z) (text : string) (done : bool) : Todo.t :=
  {| Todo.id := i; Todo.user_id := user; Todo.task := lit text;
     Todo.completed := done; Todo.created_at := lit "2024-05-01T10:00:00Z" |}.

Definition two_rows : list Todo.t := [row 1 "Buy milk" false; row 2 "Pay rent" false].

Definition showing (ts : list Todo.t) (input : string) (notice : string) : TodoApp.State :=
  {| TodoApp.tasks := ts; TodoApp.newTask := lit input;
     TodoApp.loading := false; TodoApp.error := lit notice |}.

(** A backend whose every call is answered with the error [e]. *)
Definition refusing (request : Type -> Type) (e : thrown) : backend request :=
  fun _ _ => Reply None (Some e).

(** A backend that acknowledges every call; an insert returns [created]. *)
Definition accepting (created : Todo.t) : backend TodoApp.request :=
  fun _ req =>
    match req in TodoApp.request A return settled A with
    | TodoApp.SelectTodos _ => Reply (Some [created]) None
    | TodoApp.InsertTodo _ _ _ => Reply (Some created) None
    | TodoApp.UpdateCompleted _ _ => Reply None None
    | TodoApp.DeleteTodo _ => Reply None None
    end.

(** An [Error] object, and the plain [{ message }] object a [catch]
    clause can receive as well. *)
Definition an_Error (m : string) : thrown :=
  {| instanceof_Error := true; message := lit m |}.
Definition a_plain_object (m : string) : thrown :=
  {| instanceof_Error := false; message := lit m |}.

(** A backend that signs the user in and hands a session back. *)
Definition signing_in (s : Session.t) : backend Auth.request :=
  fun _ req =>
    match req in Auth.request A return settled A with
    | Auth.SignUp _ _ => Reply (Some s) None
    | Auth.SignInWithPassword _ _ => Reply (Some s) None
    end.

(** [n] completed tasks followed by [m] open ones. *)
Definition progress (n m : nat) : list Todo.t :=
  repeat (row 0 "done" true) n ++ repeat (row 0 "open" false) m.

End Sample.

Module Cases.

Definition three_rows : list Todo.t :=
  [Sample.row 1 "Buy milk" false; Sample.row 2 "Pay rent" true;
   Sample.row 3 "Call mum" false].

(** A backend that creates [created] on insert, acknowledges updates,
    returns [rows] on select and refuses every delete with [e]. *)
Definition refusing_deletes (rows : list Todo.t) (created : Todo.t) (e : thrown)
  : backend TodoApp.request :=
  fun _ req =>
    match req in TodoApp.request A return settled A with
    | TodoApp.SelectTodos _ => Reply (Some rows) None
    | TodoApp.InsertTodo _ _ _ => Reply (Some created) None
    | TodoApp.UpdateCompleted _ _ => Reply None None
    | TodoApp.DeleteTodo _ => Reply None (Some e)
    end.

(** The form as a user has filled it, with a notice left from before. *)
Definition filled (signUp : bool) : Auth.State :=
  {| Auth.loading := false; Auth.email := lit "ada@example.com";
     Auth.password := lit "secret1"; Auth.isSignUp := signUp;
     Auth.error := lit "Invalid login credentials"; Auth.alerts := [] |}.

End Cases.

(* ===================================================================== *)
(** ** Strings: [trim] *)
(* ===================================================================== *)

Module TrimFacts.

Lemma trimStart_blank (s : str) : blank s -> trimStart s = [].
Proof.
  induction 1 as [|c rest Hc _ IH]; simpl.
  - reflexivity.
  - rewrite Hc. exact IH.
Qed.

(** What [trimStart] leaves starts with a code unit it does not strip. *)
Lemma trimStart_head (s : str) :
  trimStart s = [] \/
  exists c rest, trimStart s = c :: rest /\ is_white_space c = false.
Proof.
  induction s as [|c rest IH]; simpl.
  - now left.
  - destruct (is_white_space c) eqn:Hc.
    + exact IH.
    + right. now exists c, rest.
Qed.

Lemma trimStart_nil_blank (s : str) : trimStart s = [] -> blank s.
Proof.
  induction s as [|c rest IH]; simpl; intros H.
  - constructor.
  - destruct (is_white_space c) eqn:Hc.
    + constructor; [exact Hc | exact (IH H)].
    + discriminate H.
Qed.

Lemma blank_rev (s : str) : blank (rev s) -> blank s.
Proof.
  unfold blank. rewrite !Forall_forall. intros H c Hin.
  apply H. now apply in_rev in Hin.
Qed.

(** [if (!trimmedTask) return] fires exactly on blank input. *)
Lemma trim_nil_iff (s : str) : trim s = [] <-> blank s.
Proof.
  unfold trim, trimEnd. split.
  - intros H.
    assert (Hr : trimStart (rev (trimStart s)) = []).
    { rewrite <- (rev_involutive (trimStart (rev (trimStart s)))), H. reflexivity. }
    apply trimStart_nil_blank, blank_rev in Hr.
    destruct (trimStart_head s) as [Hs | (c & rest & Hs & Hc)].
    + apply trimStart_nil_blank. exact Hs.
    + rewrite Hs in Hr. inversion Hr as [|? ? Hc' _]. congruence.
  - intros H. now rewrite (trimStart_blank _ H).
Qed.

Lemma truthy_trim (s : str) : truthy (trim s) = false <-> blank s.
Proof.
  rewrite <- trim_nil_iff. destruct (trim s); simpl; split; congruence.
Qed.

End TrimFacts.

(* ===================================================================== *)
(** ** Lists of rows with unique ids *)
(* ===================================================================== *)

Module RowFacts.

Import TodoApp.

Lemma filter_keeps_all (id : Z) (ts : list Todo.t) :
  (forall u, In u ts -> Todo.id u <> id) -> filter (keeps id) ts = ts.
Proof.
  induction ts as [|u ts IH]; simpl; intros H.
  - reflexivity.
  - unfold keeps at 1. destruct (Z.eqb_spec (Todo.id u) id) as [E|_]; simpl.
    + exfalso. apply (H u); auto.
    + f_equal. apply IH. intros v Hv. apply H. now right.
Qed.

(** In a list with unique ids a row splits the list into the rows before
    and after it, and none of those shares its id. *)
Lemma split_at_row (ts : list Todo.t) (t : Todo.t) :
  unique_ids ts -> In t ts ->
  exists before after,
    ts = before ++ t :: after
    /\ forall u, In u (before ++ after) -> Todo.id u <> Todo.id t.
Proof.
  unfold unique_ids. intros Hnd Hin.
  destruct (in_split _ _ Hin) as (before & after & ->).
  exists before, after. split; [reflexivity|].
  intros u Hu E.
  rewrite map_app in Hnd. simpl in Hnd.
  apply NoDup_remove_2 in Hnd. apply Hnd.
  rewrite <- map_app, <- E. now apply in_map.
Qed.

Lemma filter_drops_row (before after : list Todo.t) (t : Todo.t) :
  (forall u, In u (before ++ after) -> Todo.id u <> Todo.id t) ->
  filter (keeps (Todo.id t)) (before ++ t :: after) = before ++ after.
Proof.
  intros H. rewrite filter_app. simpl.
  unfold keeps at 2. rewrite Z.eqb_refl. simpl.
  rewrite !filter_keeps_all; auto.
  - intros u Hu. apply H, in_or_app. now right.
  - intros u Hu. apply H, in_or_app. now left.
Qed.

(** Whatever the ids, no row with the deleted id survives the filter. *)
Lemma filter_keeps_no_match (id : Z) (ts : list Todo.t) (u : Todo.t) :
  In u (filter (keeps id) ts) -> Todo.id u <> id.
Proof.
  intros Hin. apply filter_In in Hin. destruct Hin as [_ Hk].
  unfold keeps in Hk. now destruct (Z.eqb_spec (Todo.id u) id).
Qed.

(** The filter removes as many rows as carry the id. *)
Lemma filter_length (id : Z) (ts : list Todo.t) :
  (List.length (filter (keeps id) ts)
   + count_occ Z.eq_dec (map Todo.id ts) id = List.length ts)%nat.
Proof.
  induction ts as [|u ts IH]; simpl.
  - reflexivity.
  - unfold keeps at 1.
    destruct (Z.eqb_spec (Todo.id u) id) as [E|NE];
      destruct (Z.eq_dec (Todo.id u) id); try contradiction; simpl; lia.
Qed.

Lemma map_flip_others (id : Z) (c : bool) (ts : list Todo.t) :
  (forall u, In u ts -> Todo.id u <> id) -> map (flip id c) ts = ts.
Proof.
  induction ts as [|u ts IH]; simpl; intros H.
  - reflexivity.
  - unfold flip at 1. destruct (Z.eqb_spec (Todo.id u) id) as [E|_].
    + exfalso. apply (H u); auto.
    + f_equal. apply IH. intros v Hv. apply H. now right.
Qed.

Lemma map_flip_row (before after : list Todo.t) (t : Todo.t) (c : bool) :
  (forall u, In u (before ++ after) -> Todo.id u <> Todo.id t) ->
  map (flip (Todo.id t) c) (before ++ t :: after)
  = before ++ TodoApp.with_completed (negb c) t :: after.
Proof.
  intros H. rewrite map_app. simpl.
  unfold flip at 2. rewrite Z.eqb_refl.
  rewrite !map_flip_others; auto.
  - intros u Hu. apply H, in_or_app. now right.
  - intros u Hu. apply H, in_or_app. now left.
Qed.

Lemma flip_keeps_ids (id : Z) (c : bool) (ts : list Todo.t) :
  map Todo.id (map (flip id c) ts) = map Todo.id ts.
Proof.
  rewrite map_map. apply map_ext. intros t.
  unfold flip. now destruct (Todo.id t =? id)%Z.
Qed.

Lemma filter_unique_ids (f : Todo.t -> bool) (ts : list Todo.t) :
  unique_ids ts -> unique_ids (filter f ts).
Proof.
  unfold unique_ids. induction ts as [|t ts IH]; simpl; intros H.
  - constructor.
  - apply NoDup_cons_iff in H. destruct H as [Hfresh Hrest].
    destruct (f t); simpl; auto.
    constructor; auto.
    intros Hin. apply Hfresh.
    apply in_map_iff in Hin. destruct Hin as (v & <- & Hv).
    apply filter_In in Hv. apply in_map. tauto.
Qed.

End RowFacts.

(* ===================================================================== *)
(** ** The task-list synchronizer *)
(* ===================================================================== *)

Module Synchronizer.

Import TodoApp RowFacts.

(** *** Scenarios of the specification *)

(** Empty collection, add "Buy milk": one open task, 0 percent. *)
Example scenario_add :
  let st := Sample.showing [] "Buy milk" "" in
  let created := Sample.row 7 "Buy milk" false in
  let st' := run (Sample.accepting created) (addTask Sample.user st) in
  tasks st' = [created]
  /\ totalCount (tasks st') = 1%nat
  /\ completionPercentage (tasks st') = 0%float.
Proof. repeat split. Qed.

(** Two open tasks, toggle the first: 50 percent. *)
Example scenario_toggle :
  let st := Sample.showing Sample.two_rows "" "" in
  let st' := run (Sample.accepting (Sample.row 0 "" false)) (toggleTask 1 false st) in
  tasks st' = [Sample.row 1 "Buy milk" true; Sample.row 2 "Pay rent" false]
  /\ completionPercentage (tasks st') = 50%float.
Proof. repeat split. Qed.

(** Delete the second task, the backend refuses: the list is back. *)
Example scenario_delete_fails :
  let st := Sample.showing Sample.two_rows "" "" in
  let h := deleteTask 2 st in
  tasks (now h) = [Sample.row 1 "Buy milk" false]
  /\ tasks (run (Sample.refusing _ (Sample.an_Error "offline")) h) = Sample.two_rows.
Proof. repeat split. Qed.

(** *** Shared facts about the handlers *)

Lemma report_tasks (e : thrown) (st : State) : tasks (report e st) = tasks st.
Proof. unfold report. now destruct (instanceof_Error e). Qed.

Lemma report_newTask (e : thrown) (st : State) : newTask (report e st) = newTask st.
Proof. unfold report. now destruct (instanceof_Error e). Qed.

Lemma report_error (e : thrown) (st : State) :
  error (report e st) = if instanceof_Error e then message e else error st.
Proof. unfold report. now destruct (instanceof_Error e). Qed.

(** A call that failed hands some value to the [catch] block. *)
Lemma failed_inv {A} (r : settled A) :
  failed r ->
  (exists d e, r = Reply d (Some e)) \/ (exists e, r = Rejects e).
Proof.
  destruct r as [d [e|] | e]; unfold failed; simpl; intros H.
  - left. now exists d, e.
  - now elim H.
  - right. now exists e.
Qed.

Lemma succeeded_inv {A} (r : settled A) :
  failure r = None -> exists d, r = Reply d None.
Proof.
  destruct r as [d [e|] | e]; simpl; intros H; try discriminate H.
  now exists d.
Qed.

Ltac failed_cases H :=
  destruct (failed_inv _ H) as [(?d & ?e & ?Hr) | (?e & ?Hr)].

Lemma addTask_awaits (u : str) (st : State) :
  trim (newTask st) <> [] ->
  exists k, addTask u st
            = Await (setError [] st) (InsertTodo (trim (newTask st)) u false) k
       /\ forall r current,
            k r current =
            match r with
            | Reply (Some row) None => setNewTask [] (setTasks (row :: tasks st) current)
            | Reply None None => current
            | Reply _ (Some e) | Rejects e => report e current
            end.
Proof.
  intros Hne. unfold addTask.
  destruct (trim (newTask st)) as [|c rest] eqn:E; [now elim Hne|]. simpl.
  eexists. split; [reflexivity|].
  intros [[row|] [e|] | e] current; reflexivity.
Qed.

Lemma addTask_blank (u : str) (st : State) :
  blank (newTask st) -> addTask u st = Done st.
Proof.
  intros Hb. unfold addTask.
  apply TrimFacts.trim_nil_iff in Hb. now rewrite Hb.
Qed.

(** X24. Unique ids are an invariant of the collection: every handler keeps
    them, in the state it leaves while its request is in flight and in
    the state it writes when it resumes, as long as the store assigns
    fresh ids. *)
Lemma unique_ids_invariant
      (u : str) (a : action) (st current : State) (b : backend request) :
  unique_ids (tasks st) ->
  unique_ids (tasks current) ->
  assigns_fresh_ids b (tasks st) ->
  unique_ids (tasks (now (handle u a st)))
  /\ unique_ids (tasks (settle b (handle u a st) current)).
Proof.
  intros Hst Hcur [Hselect Hinsert].
  destruct a as [ | | id c | id]; simpl handle.
  - split; [exact Hst|]. simpl.
    destruct (b _ (SelectTodos u)) as [[rows|] [e|] | e] eqn:E; simpl;
      rewrite ?report_tasks; auto.
    + now apply (Hselect u).
    + constructor.
  - unfold addTask. destruct (negb (truthy (trim (newTask st)))); simpl.
    + now split.
    + split; [exact Hst|].
      destruct (b _ (InsertTodo (trim (newTask st)) u false))
        as [[row|] [e|] | e] eqn:E; simpl; rewrite ?report_tasks; auto.
      constructor; auto. now apply (Hinsert _ _ _ _ E).
  - split; [exact Hst|]. simpl.
    destruct (b _ (UpdateCompleted id (negb c))) as [d [e|] | e]; simpl;
      rewrite ?report_tasks; auto.
    unfold unique_ids.
    change (NoDup (map Todo.id (map (flip id c) (tasks st)))).
    now rewrite flip_keeps_ids.
  - split.
    + simpl. now apply filter_unique_ids.
    + simpl. destruct (b _ (DeleteTodo id)) as [d [e|] | e]; simpl;
        rewrite ?report_tasks; auto.
Qed.

(** *** Delete *)

(** C1. For a task [t] of the collection (ids unique, as the data model
    has them), [deleteTask t.id] takes [t] out while the request is still
    in flight: [t] is no longer a member, the rows before and after it
    stay as they were, and the collection is one shorter.  If the
    request fails, the handler writes the snapshot it took when it was
    called back, whatever had happened in between: the collection is the
    pre-delete list again, element for element and in order. *)
Theorem C1_delete_optimistic_then_rollback (st : State) (t : Todo.t) :
  In t (tasks st) ->
  unique_ids (tasks st) ->
  issued (deleteTask (Todo.id t) st) = [existT _ _ (DeleteTodo (Todo.id t))]
  /\ ~ In t (tasks (now (deleteTask (Todo.id t) st)))
  /\ S (List.length (tasks (now (deleteTask (Todo.id t) st)))) = List.length (tasks st)
  /\ (exists before after,
         tasks st = before ++ t :: after
         /\ tasks (now (deleteTask (Todo.id t) st)) = before ++ after)
  /\ (forall b, fails b (deleteTask (Todo.id t) st) ->
                tasks (run b (deleteTask (Todo.id t) st)) = tasks st)
  /\ (forall b current, fails b (deleteTask (Todo.id t) st) ->
                        tasks (settle b (deleteTask (Todo.id t) st) current) = tasks st).
Proof.
  intros Hin Huniq.
  destruct (split_at_row _ _ Huniq Hin) as (before & after & Hsplit & Hothers).
  assert (Hnow : tasks (now (deleteTask (Todo.id t) st)) = before ++ after).
  { simpl. rewrite Hsplit. now apply filter_drops_row. }
  assert (Hback : forall b current,
             fails b (deleteTask (Todo.id t) st) ->
             tasks (settle b (deleteTask (Todo.id t) st) current) = tasks st).
  { intros b current Hf. simpl in Hf |- *.
    failed_cases Hf; rewrite Hr; now rewrite report_tasks. }
  repeat split.
  - rewrite Hnow. intros Hmem. now apply (Hothers t).
  - rewrite Hnow, Hsplit, !length_app. simpl. lia.
  - now exists before, after.
  - intros b Hf. now apply Hback.
  - exact Hback.
Qed.

Lemma C1_witness :
  let st := Sample.showing Sample.two_rows "" "" in
  let t := Sample.row 2 "Pay rent" false in
  tasks (now (deleteTask (Todo.id t) st)) = [Sample.row 1 "Buy milk" false]
  /\ S (List.length (tasks (now (deleteTask (Todo.id t) st)))) = 2%nat
  /\ tasks (run (Sample.refusing _ (Sample.an_Error "offline"))
                (deleteTask (Todo.id t) st)) = Sample.two_rows.
Proof.
  intros st t.
  assert (Hin : In t (tasks st)) by (simpl; auto).
  assert (Huniq : unique_ids (tasks st)).
  { unfold unique_ids. simpl. repeat constructor; simpl; intuition discriminate. }
  destruct (C1_delete_optimistic_then_rollback st t Hin Huniq)
    as (_ & _ & Hlen & _ & Hrun & _).
  split; [reflexivity|]. split; [exact Hlen|].
  apply Hrun. simpl. unfold failed. simpl. discriminate.
Defined.

(** C9. Deleting an id that no row carries: the filter keeps every row,
    so the collection is unchanged while the one delete request is in
    flight, and it is unchanged whatever the backend answers (on failure
    the snapshot written back is the collection itself). *)
Theorem C9_delete_absent_id (st : State) (id : Z) :
  ~ In id (map Todo.id (tasks st)) ->
  tasks (now (deleteTask id st)) = tasks st
  /\ issued (deleteTask id st) = [existT _ _ (DeleteTodo id)]
  /\ forall b, tasks (run b (deleteTask id st)) = tasks st.
Proof.
  intros Habsent.
  assert (Hnow : tasks (now (deleteTask id st)) = tasks st).
  { simpl. apply filter_keeps_all. intros u Hu E. apply Habsent.
    rewrite <- E. now apply in_map. }
  repeat split; [exact Hnow|].
  intros b. unfold run. simpl settle.
  destruct (b unit (DeleteTodo id)) as [d [e|] | e].
  - now rewrite report_tasks.
  - exact Hnow.
  - now rewrite report_tasks.
Qed.

Lemma C9_witness :
  let st := Sample.showing Sample.two_rows "" "" in
  tasks (now (deleteTask 5 st)) = Sample.two_rows
  /\ issued (deleteTask 5 st) = [existT _ _ (DeleteTodo 5)]
  /\ forall b, tasks (run b (deleteTask 5 st)) = Sample.two_rows.
Proof.
  intros st. apply (C9_delete_absent_id st 5).
  simpl. intuition discriminate.
Defined.

(** *** Add *)

(** C3. When the input is empty or white-space only, [addTask] returns at
    its guard: no request is issued and no cell is written, so the
    collection (hence its length), the input and the error notice are
    what they were. *)
Theorem C3_add_blank_is_noop (u : str) (st : State) (b : backend request) :
  blank (newTask st) ->
  issued (addTask u st) = []
  /\ now (addTask u st) = st
  /\ run b (addTask u st) = st
  /\ List.length (tasks (run b (addTask u st))) = List.length (tasks st)
  /\ error (run b (addTask u st)) = error st.
Proof.
  intros Hb. rewrite (addTask_blank u st Hb). repeat split.
Qed.

Lemma C3_witness :
  issued (addTask Sample.user (Sample.showing Sample.two_rows "  " "")) = []
  /\ run (Sample.refusing _ (Sample.an_Error "offline"))
         (addTask Sample.user (Sample.showing Sample.two_rows "  " ""))
     = Sample.showing Sample.two_rows "  " "".
Proof.
  destruct (C3_add_blank_is_noop Sample.user
              (Sample.showing Sample.two_rows "  " "")
              (Sample.refusing _ (Sample.an_Error "offline")))
    as (Hi & _ & Hr & _).
  - repeat constructor.
  - split; [exact Hi | exact Hr].
Defined.

(** C2. When the trimmed input is not empty, [addTask] submits a row with
    [task = trim(text)], [completed = false] and no id.  When the store
    answers with the row it created from that, the handler puts exactly
    this row in front of the collection it was called with: the first
    element has the trimmed text, is open and carries the store's id, and
    the rest is the old collection.  The input is cleared. *)
Theorem C2_add_prepends_created_row
        (u : str) (st : State) (b : backend request) (created : Todo.t) :
  trim (newTask st) <> [] ->
  b _ (InsertTodo (trim (newTask st)) u false) = Reply (Some created) None ->
  Todo.task created = trim (newTask st) ->
  Todo.completed created = false ->
  issued (addTask u st) = [existT _ _ (InsertTodo (trim (newTask st)) u false)]
  /\ tasks (now (addTask u st)) = tasks st
  /\ tasks (run b (addTask u st)) = created :: tasks st
  /\ newTask (run b (addTask u st)) = []
  /\ exists first rest,
       tasks (run b (addTask u st)) = first :: rest
       /\ Todo.task first = trim (newTask st)
       /\ Todo.completed first = false
       /\ Todo.id first = Todo.id created
       /\ rest = tasks st.
Proof.
  intros Hne Hb Htask Hopen.
  destruct (addTask_awaits u st Hne) as (k & -> & Hk).
  unfold run. simpl. rewrite Hb, Hk. simpl.
  repeat split.
  exists created, (tasks st). repeat split; assumption.
Qed.

Lemma C2_witness :
  tasks (run (Sample.accepting (Sample.row 7 "Buy milk" false))
             (addTask Sample.user (Sample.showing Sample.two_rows "  Buy milk " "")))
  = Sample.row 7 "Buy milk" false :: Sample.two_rows.
Proof.
  apply (C2_add_prepends_created_row Sample.user
           (Sample.showing Sample.two_rows "  Buy milk " "")
           (Sample.accepting (Sample.row 7 "Buy milk" false))
           (Sample.row 7 "Buy milk" false)).
  - vm_compute. discriminate.
  - reflexivity.
  - reflexivity.
  - reflexivity.
Defined.

(** *** Toggle *)

(** C4. For a task [t] of a collection with unique ids, the checkbox calls
    [toggleTask t.id t.completed]; the request asks for the negated flag,
    and once it is acknowledged the collection is the old one with [t]
    replaced, in place, by [t] with [completed] negated.  No row before or
    after it carries [t]'s id, all of them are unchanged, and so is every
    other field of the toggled row. *)
Theorem C4_toggle_flips_exactly_one (st : State) (t : Todo.t) (b : backend request) :
  In t (tasks st) ->
  unique_ids (tasks st) ->
  succeeds b (toggleTask (Todo.id t) (Todo.completed t) st) ->
  issued (toggleTask (Todo.id t) (Todo.completed t) st)
  = [existT _ _ (UpdateCompleted (Todo.id t) (negb (Todo.completed t)))]
  /\ exists before after toggled,
      tasks st = before ++ t :: after
      /\ tasks (run b (toggleTask (Todo.id t) (Todo.completed t) st))
         = before ++ toggled :: after
      /\ (forall u, In u (before ++ after) -> Todo.id u <> Todo.id t)
      /\ Todo.id toggled = Todo.id t
      /\ Todo.completed toggled = negb (Todo.completed t)
      /\ Todo.user_id toggled = Todo.user_id t
      /\ Todo.task toggled = Todo.task t
      /\ Todo.created_at toggled = Todo.created_at t.
Proof.
  intros Hin Huniq Hok. split; [reflexivity|].
  destruct (split_at_row _ _ Huniq Hin) as (before & after & Hsplit & Hothers).
  exists before, after, (with_completed (negb (Todo.completed t)) t).
  split; [exact Hsplit|]. split.
  - unfold run. simpl in Hok |- *.
    destruct (succeeded_inv _ Hok) as (d & ->). simpl.
    rewrite Hsplit. now apply map_flip_row.
  - repeat split. exact Hothers.
Qed.

Lemma C4_witness :
  exists before after toggled,
    Sample.two_rows = before ++ Sample.row 1 "Buy milk" false :: after
    /\ tasks (run (Sample.accepting (Sample.row 0 "" false))
                  (toggleTask 1 false (Sample.showing Sample.two_rows "" "")))
       = before ++ toggled :: after
    /\ Todo.id toggled = 1%Z
    /\ Todo.completed toggled = true.
Proof.
  destruct (C4_toggle_flips_exactly_one
              (Sample.showing Sample.two_rows "" "")
              (Sample.row 1 "Buy milk" false)
              (Sample.accepting (Sample.row 0 "" false)))
    as (_ & before & after & toggled & H1 & H2 & _ & H3 & H4 & _).
  - simpl. auto.
  - unfold unique_ids. simpl. repeat constructor; simpl; intuition discriminate.
  - reflexivity.
  - exists before, after, toggled. repeat split; assumption.
Defined.

(** *** Failures *)

(** What a failed insert leaves behind: the [catch] block writes the
    message of an [Error] and nothing otherwise. *)
Lemma addTask_failure (u : str) (st : State) (b : backend request) :
  fails b (addTask u st) ->
  tasks (run b (addTask u st)) = tasks st
  /\ newTask (run b (addTask u st)) = newTask st
  /\ exists e, thrown_by b (addTask u st) = Some e
               /\ error (run b (addTask u st))
                  = if instanceof_Error e then message e else [].
Proof.
  unfold addTask. destruct (negb (truthy (trim (newTask st)))); simpl.
  - intros [].
  - unfold run. simpl. intros Hf.
    failed_cases Hf; rewrite Hr; simpl;
      rewrite report_tasks, report_newTask, report_error; simpl;
      repeat split; exists e; split; reflexivity.
Qed.

(** C5. The insert of "Buy milk" is refused with a value that is not an
    [Error] (the plain [{ message, code }] object of a reply's error
    slot).  The input and the collection are kept, but the [catch] block
    of [addTask] has no branch for such a value: the error cell stays
    empty and no notice is shown.  The [catch] block of [handleAuth], on
    the same value, shows "An unexpected error occurred". *)
Theorem C5_add_failure_without_notice :
  run (Sample.refusing _ (Sample.a_plain_object "new row violates row-level security policy"))
      (addTask Sample.user (Sample.showing Sample.two_rows "Buy milk" ""))
  = Sample.showing Sample.two_rows "Buy milk" ""
  /\ error (run (Sample.refusing _ (Sample.a_plain_object "new row violates row-level security policy"))
               (addTask Sample.user (Sample.showing Sample.two_rows "Buy milk" "")))
     = []
  /\ Auth.error (run (Sample.refusing _ (Sample.a_plain_object "new row violates row-level security policy"))
                    (Auth.handleAuth Auth.initial))
     = lit "An unexpected error occurred".
Proof. repeat split. Qed.

(** C6. Whichever handler runs, if its request fails the collection is
    what it was when the handler was called; for load this includes the
    first one, on the initial empty collection.  Load, add and toggle get
    there by never writing the collection: not before the answer, and not
    in their failure path, whatever the state they resume in.  Delete is
    the one that has written by then (the collection in flight differs
    whenever the id is there) and writes the old collection back. *)
Theorem C6_failure_leaves_collection
        (u : str) (a : action) (st : State) (b : backend request) :
  fails b (handle u a st) ->
  tasks (run b (handle u a st)) = tasks st
  /\ (is_delete a = false ->
      tasks (now (handle u a st)) = tasks st
      /\ forall current, tasks (settle b (handle u a st) current) = tasks current)
  /\ (forall id, a = ClickDelete id ->
      (In id (map Todo.id (tasks st)) -> tasks (now (handle u a st)) <> tasks st)
      /\ forall current, tasks (settle b (handle u a st) current) = tasks st).
Proof.
  destruct a as [ | | id c | id]; simpl handle.
  - (* loadTasks *)
    unfold run. simpl. intros Hf.
    failed_cases Hf; rewrite Hr; simpl; repeat split;
      try discriminate; intros; now rewrite report_tasks.
  - (* addTask *)
    unfold addTask. destruct (negb (truthy (trim (newTask st)))); simpl.
    + intros [].
    + unfold run. simpl. intros Hf.
      failed_cases Hf; rewrite Hr; simpl; repeat split;
        try discriminate; intros; now rewrite report_tasks.
  - (* toggleTask *)
    unfold run. simpl. intros Hf.
    failed_cases Hf; rewrite Hr; simpl; repeat split;
      try discriminate; intros; now rewrite report_tasks.
  - (* deleteTask *)
    unfold run. simpl. intros Hf.
    assert (Hshorter : forall id', In id' (map Todo.id (tasks st)) ->
               filter (fun task => negb (Todo.id task =? id')%Z) (tasks st) <> tasks st).
    { intros id' Hin E. apply in_map_iff in Hin. destruct Hin as (t & <- & Hin).
      rewrite <- E in Hin. now apply (filter_keeps_no_match _ _ _ Hin). }
    failed_cases Hf; rewrite Hr; simpl; repeat split;
      try discriminate; intros;
      try (rewrite report_tasks; reflexivity);
      match goal with
      | H : ClickDelete _ = ClickDelete _ |- _ => injection H as <-
      end; now apply Hshorter.
Qed.

Lemma C6_witness :
  tasks (run (Sample.refusing _ (Sample.an_Error "offline"))
             (handle Sample.user Mount initial)) = []
  /\ tasks (run (Sample.refusing _ (Sample.an_Error "offline"))
                (handle Sample.user (Tick 1 false) (Sample.showing Sample.two_rows "" "")))
     = Sample.two_rows.
Proof.
  split.
  - destruct (C6_failure_leaves_collection Sample.user Mount initial
                (Sample.refusing _ (Sample.an_Error "offline"))) as (H & _).
    + simpl. unfold failed. simpl. discriminate.
    + exact H.
  - destruct (C6_failure_leaves_collection Sample.user (Tick 1 false)
                (Sample.showing Sample.two_rows "" "")
                (Sample.refusing _ (Sample.an_Error "offline"))) as (H & _).
    + simpl. unfold failed. simpl. discriminate.
    + exact H.
Defined.

(** *** The error notice *)

(** C10, as stated, fails: submitting a blank input is an operation the
    user starts, and it leaves the notice of an earlier failure in
    place, when it starts and when it is over. *)
Lemma C10_blank_add_keeps_notice :
  error (now (handle Sample.user Submit (Sample.showing Sample.two_rows "   " "offline")))
  = lit "offline"
  /\ error (run (Sample.accepting (Sample.row 7 "" false))
               (handle Sample.user Submit (Sample.showing Sample.two_rows "   " "offline")))
     <> [].
Proof. split; [reflexivity | vm_compute; discriminate]. Qed.

(** C10, amended. A handler that issues a request (load, toggle, delete,
    and add of text that is not blank) has emptied the error cell by the
    time the request is in flight, so a notice shown earlier is gone.
    When the handler is over the cell is empty if the call succeeded,
    and in any case holds nothing but the message of this call's own
    failure: never the earlier notice.  There is one cell, hence at most
    one notice. *)
Theorem C10_request_resets_notice
        (u : str) (a : action) (st : State) (b : backend request) :
  issued (handle u a st) <> [] ->
  error (now (handle u a st)) = []
  /\ (succeeds b (handle u a st) -> error (run b (handle u a st)) = [])
  /\ (error (run b (handle u a st)) = []
      \/ exists e, thrown_by b (handle u a st) = Some e
                   /\ error (run b (handle u a st)) = message e).
Proof.
  assert (Hcatch : forall e s,
             error s = [] ->
             error (report e s) = [] \/ error (report e s) = message e).
  { intros e s Hs. rewrite report_error. destruct (instanceof_Error e); auto. }
  destruct a as [ | | id c | id]; simpl handle.
  - intros _. unfold run. simpl.
    destruct (b _ (SelectTodos u)) as [d [e|] | e]; simpl;
      repeat split; try discriminate; auto;
      destruct (Hcatch e (setError [] st) eq_refl) as [H|H]; eauto.
  - unfold addTask. destruct (negb (truthy (trim (newTask st)))); simpl.
    + intros H. now elim H.
    + intros _. unfold run. simpl.
      destruct (b _ (InsertTodo (trim (newTask st)) u false)) as [[row|] [e|] | e];
        simpl; repeat split; try discriminate; auto;
        destruct (Hcatch e (setError [] st) eq_refl) as [H|H]; eauto.
  - intros _. unfold run. simpl.
    destruct (b _ (UpdateCompleted id (negb c))) as [d [e|] | e]; simpl;
      repeat split; try discriminate; auto;
      destruct (Hcatch e (setError [] st) eq_refl) as [H|H]; eauto.
  - intros _. unfold run. simpl.
    destruct (b _ (DeleteTodo id)) as [d [e|] | e]; simpl;
      repeat split; try discriminate; auto;
      match goal with
      | |- context [report e ?s] =>
          destruct (Hcatch e s eq_refl) as [H|H]; eauto
      end.
Qed.

Lemma C10_witness :
  error (now (handle Sample.user (ClickDelete 2)
                     (Sample.showing Sample.two_rows "" "offline"))) = []
  /\ error (run (Sample.refusing _ (Sample.an_Error "forbidden"))
               (handle Sample.user (ClickDelete 2)
                       (Sample.showing Sample.two_rows "" "offline")))
     = lit "forbidden".
Proof.
  destruct (C10_request_resets_notice Sample.user (ClickDelete 2)
              (Sample.showing Sample.two_rows "" "offline")
              (Sample.refusing _ (Sample.an_Error "forbidden"))) as (H & _).
  - simpl. discriminate.
  - split; [exact H | reflexivity].
Defined.

(** *** The percentage *)

(** [completedCount] counts the rows whose flag is set. *)
Lemma completedCount_counts (ts : list Todo.t) :
  completedCount ts = count_occ bool_dec (map Todo.completed ts) true.
Proof.
  unfold completedCount.
  induction ts as [|t ts IH]; simpl.
  - reflexivity.
  - destruct (Todo.completed t); simpl.
    + now rewrite IH.
    + exact IH.
Qed.

(** One completed task of three: the render computes
    33.33333333333333 (0x1.0aaaaaaaaaaaap+5), the expression of the
    specification 33.333333333333336 (0x1.0aaaaaaaaaaabp+5). *)
Example one_of_three :
  completionPercentage (Sample.progress 1 2) = 0x1.0aaaaaaaaaaaap+5%float
  /\ claimed_percentage (Sample.progress 1 2) = 0x1.0aaaaaaaaaaabp+5%float.
Proof. split; reflexivity. Qed.

(** C7, as stated, fails: with 11 of 20 tasks completed,
    [100 * completedCount / totalCount] is 55, and the render computes
    [(11 / 20) * 100], which is 55.00000000000001 in binary64
    (0x1.b800000000001p+5, one unit in the last place above 55). *)
Lemma C7_eleven_of_twenty :
  totalCount (Sample.progress 11 9) = 20%nat
  /\ completedCount (Sample.progress 11 9) = 11%nat
  /\ completionPercentage (Sample.progress 11 9) = 0x1.b800000000001p+5%float
  /\ claimed_percentage (Sample.progress 11 9) = 55%float
  /\ PrimFloat.eqb (completionPercentage (Sample.progress 11 9))
                   (claimed_percentage (Sample.progress 11 9)) = false
  /\ completionPercentage (Sample.progress 11 9)
     <> claimed_percentage (Sample.progress 11 9).
Proof.
  repeat split. vm_compute. intros H. discriminate H.
Qed.

(** C7, amended. The percentage is 0 for the empty collection; otherwise
    it is the quotient of the number of completed rows by the length of
    the collection, rounded to binary64, times 100, rounded again: the
    division comes first, and the result is the exact
    [100 * completedCount / totalCount] up to these two roundings only. *)
Theorem C7_percentage_divides_first (ts : list Todo.t) :
  completionPercentage ts
  = match ts with
    | [] => 0%float
    | _ :: _ =>
        PrimFloat.mul
          (PrimFloat.div
             (of_length (count_occ bool_dec (map Todo.completed ts) true))
             (of_length (List.length ts)))
          100%float
    end.
Proof.
  unfold completionPercentage. rewrite completedCount_counts.
  destruct ts as [|t ts]; reflexivity.
Qed.

End Synchronizer.

(* ===================================================================== *)
(** ** The session gate *)
(* ===================================================================== *)

Module SessionGate.

Import Gate.

(** The gate starts in Loading, and a notification decides between the
    form and the task view, in both directions. *)
Example gate_scenario :
  let s := Session.Make Sample.user in
  App.render (app initial) = App.LoadingView
  /\ App.render (app (step (SessionResolved None) initial)) = App.AuthView
  /\ App.render (app (step (AuthStateChanged (Some s))
                           (step (SessionResolved None) initial)))
     = App.TodoAppView s
  /\ App.render (app (step (AuthStateChanged None)
                           (step (AuthStateChanged (Some s))
                                 (step (SessionResolved None) initial))))
     = App.AuthView.
Proof. repeat split. Qed.

(** Both notifications write the session they carry. *)
Lemma notification_sets_session (s : option Session.t) (st : State) :
  App.session (app (step (SessionResolved s) st)) = s
  /\ App.session (app (step (AuthStateChanged s) st)) = s.
Proof. split; reflexivity. Qed.

(** The form's handler writes the form's cells only, whatever the backend
    answers. *)
Lemma handleAuth_keeps_gate (b : backend Auth.request) (st : State) :
  app (step (CredentialsSubmitted b) st) = app st.
Proof. reflexivity. Qed.

(** C8. An event that is not a notification of the backend's auth client
    (the resolution of the initial session, a call of the listener)
    leaves the cells of [App] as they are, so the gate renders what it
    rendered.  This holds for the submission of credentials whatever the
    backend answers, a session in the reply included: [handleAuth] reads
    the error slot only and has no access to [setSession]. *)
Theorem C8_session_follows_notifications (e : event) (st : State) :
  ~ notification e ->
  app (step e st) = app st
  /\ App.session (app (step e st)) = App.session (app st)
  /\ App.render (app (step e st)) = App.render (app st).
Proof.
  intros Hn.
  assert (H : app (step e st) = app st).
  { destruct e; simpl in Hn |- *; try reflexivity; now elim Hn. }
  rewrite H. repeat split.
Qed.

Lemma C8_witness :
  App.render
    (app (step (CredentialsSubmitted (Sample.signing_in (Session.Make Sample.user)))
               (step (SessionResolved None) initial)))
  = App.AuthView.
Proof.
  destruct (C8_session_follows_notifications
              (CredentialsSubmitted (Sample.signing_in (Session.Make Sample.user)))
              (step (SessionResolved None) initial)) as (_ & _ & H).
  - simpl. intros F. exact F.
  - rewrite H. reflexivity.
Defined.

End SessionGate.

(* ===================================================================== *)
(** ** More on [trim], and the text an add submits *)
(* ===================================================================== *)

Module SubmittedText.

Import TodoApp TrimFacts.

Lemma blank_app (s1 s2 : str) : blank s1 -> blank s2 -> blank (s1 ++ s2).
Proof. unfold blank. intros H1 H2. apply Forall_app. now split. Qed.

Lemma rev_blank (s : str) : blank s -> blank (rev s).
Proof. intros H. apply blank_rev. now rewrite rev_involutive. Qed.

(** [trimStart] drops a blank prefix and nothing else. *)
Lemma trimStart_split (s : str) :
  exists pre, s = pre ++ trimStart s /\ blank pre.
Proof.
  induction s as [|c rest (pre & Hs & Hpre)]; simpl.
  - exists []. split; [reflexivity | constructor].
  - destruct (is_white_space c) eqn:Hc.
    + exists (c :: pre). split.
      * simpl. now rewrite <- Hs.
      * constructor; assumption.
    + exists []. split; [reflexivity | constructor].
Qed.

(** [trimEnd] drops a blank suffix and nothing else. *)
Lemma trimEnd_split (s : str) :
  exists post, s = trimEnd s ++ post /\ blank post.
Proof.
  unfold trimEnd.
  destruct (trimStart_split (rev s)) as (pre & Hs & Hpre).
  exists (rev pre). split.
  - rewrite <- rev_app_distr, <- Hs. now rewrite rev_involutive.
  - now apply rev_blank.
Qed.

(** What [trimEnd] leaves ends with a code unit it does not strip. *)
Lemma trimEnd_last (s : str) :
  trimEnd s = [] \/
  exists init c, trimEnd s = init ++ [c] /\ is_white_space c = false.
Proof.
  unfold trimEnd.
  destruct (trimStart_head (rev s)) as [-> | (c & rest & -> & Hc)].
  - now left.
  - right. exists (rev rest), c. now split.
Qed.

Lemma trim_split (s : str) :
  exists pre post, s = pre ++ trim s ++ post /\ blank pre /\ blank post.
Proof.
  unfold trim.
  destruct (trimStart_split s) as (pre & Hs & Hpre).
  destruct (trimEnd_split (trimStart s)) as (post & Ht & Hpost).
  exists pre, post. repeat split; try assumption.
  now rewrite <- Ht.
Qed.

Lemma trim_first (s : str) :
  trim s = [] \/
  exists c rest, trim s = c :: rest /\ is_white_space c = false.
Proof.
  unfold trim.
  destruct (trimEnd_split (trimStart s)) as (post & Ht & _).
  destruct (trimEnd (trimStart s)) as [|c rest] eqn:E; [now left|].
  right. exists c, rest. split; [reflexivity|].
  destruct (trimStart_head s) as [H0 | (c0 & rest0 & H0 & Hc0)];
    rewrite H0 in Ht; simpl in Ht.
  - discriminate Ht.
  - injection Ht as -> _. exact Hc0.
Qed.

(** Trimming what is already trimmed changes nothing. *)
Lemma trim_idempotent (s : str) : trim (trim s) = trim s.
Proof.
  assert (Hstart : forall t,
             (t = [] \/ exists c rest, t = c :: rest /\ is_white_space c = false) ->
             trimStart t = t).
  { intros t [-> | (c & rest & -> & Hc)]; simpl; [reflexivity | now rewrite Hc]. }
  unfold trim at 1.
  rewrite (Hstart (trim s) (trim_first s)).
  unfold trimEnd.
  destruct (trimEnd_last (trimStart s)) as [E | (init & c & E & Hc)];
    fold (trim s) in E; rewrite E.
  - reflexivity.
  - rewrite rev_app_distr. simpl. rewrite Hc. simpl.
    now rewrite rev_involutive.
Qed.

(** X1. When the input is not blank, [addTask] issues one insert whose
    text is the input without the blank prefix and suffix around it: the
    text is not empty and neither starts nor ends with a code unit that
    [trim] strips; white space inside the text is kept. *)
Theorem add_submits_the_trimmed_input (u : str) (st : State) :
  ~ blank (newTask st) ->
  exists text pre post,
    issued (addTask u st) = [existT _ _ (InsertTodo text u false)]
    /\ newTask st = pre ++ text ++ post
    /\ blank pre /\ blank post
    /\ (exists c rest, text = c :: rest /\ is_white_space c = false)
    /\ (exists init c, text = init ++ [c] /\ is_white_space c = false)
    /\ trim text = text.
Proof.
  intros Hnb.
  assert (Hne : trim (newTask st) <> []).
  { intros E. apply Hnb. now apply trim_nil_iff. }
  destruct (trim_split (newTask st)) as (pre & post & Hs & Hpre & Hpost).
  exists (trim (newTask st)), pre, post.
  repeat split; try assumption.
  - unfold addTask. destruct (trim (newTask st)); [now elim Hne | reflexivity].
  - destruct (trim_first (newTask st)) as [E | H]; [now elim Hne | exact H].
  - destruct (trimEnd_last (trimStart (newTask st))) as [E | H]; [|exact H].
    now elim Hne.
  - apply trim_idempotent.
Qed.

Lemma add_submits_the_trimmed_input_witness :
  exists text pre post,
    issued (addTask Sample.user (Sample.showing [] "  Buy  milk " ""))
    = [existT _ _ (InsertTodo text Sample.user false)]
    /\ lit "  Buy  milk " = pre ++ text ++ post
    /\ blank pre /\ blank post.
Proof.
  destruct (add_submits_the_trimmed_input Sample.user
              (Sample.showing [] "  Buy  milk " ""))
    as (text & pre & post & H1 & H2 & H3 & H4 & _).
  - simpl. intros H. inversion H as [|? ? _ H']. inversion H' as [|? ? _ H''].
    inversion H'' as [|? ? Hc _]. discriminate Hc.
  - exists text, pre, post. repeat split; assumption.
Defined.

Example trimmed_text :
  trim (lit "  Buy  milk ") = lit "Buy  milk".
Proof. reflexivity. Qed.

End SubmittedText.

(* ===================================================================== *)
(** ** The handlers of the task view, one after and across another *)
(* ===================================================================== *)

Module Composition.

Import TodoApp RowFacts.

Lemma completedCount_app (l1 l2 : list Todo.t) :
  completedCount (l1 ++ l2) = (completedCount l1 + completedCount l2)%nat.
Proof. unfold completedCount. now rewrite filter_app, length_app. Qed.

Lemma completedCount_cons (t : Todo.t) (l : list Todo.t) :
  completedCount (t :: l)
  = ((if Todo.completed t then 1 else 0) + completedCount l)%nat.
Proof. unfold completedCount. simpl. now destruct (Todo.completed t). Qed.

Lemma with_completed_same (t : Todo.t) : with_completed (Todo.completed t) t = t.
Proof. now destruct t. Qed.

Lemma flip_commutes (id1 id2 : Z) (c1 c2 : bool) (t : Todo.t) :
  id1 <> id2 ->
  flip id1 c1 (flip id2 c2 t) = flip id2 c2 (flip id1 c1 t).
Proof.
  intros Hne. unfold flip.
  destruct (Todo.id t =? id1)%Z eqn:E1; destruct (Todo.id t =? id2)%Z eqn:E2;
    simpl; rewrite ?E1, ?E2; try reflexivity.
  apply Z.eqb_eq in E1, E2. congruence.
Qed.

(** What the three kinds of answer make of a toggle. *)
Lemma toggle_settles (id : Z) (c : bool) (st current : State) (b : backend request) :
  succeeds b (toggleTask id c st) ->
  settle b (toggleTask id c st) current
  = setTasks (map (flip id c) (tasks st)) current.
Proof.
  simpl. intros Hok.
  destruct (Synchronizer.succeeded_inv _ Hok) as (d & ->). reflexivity.
Qed.

(** What a load leaves in the cells it does not mean to write. *)
Lemma load_settles_cells (u : str) (st current : State) (b : backend request) :
  loading (settle b (loadTasks u st) current) = false
  /\ newTask (settle b (loadTasks u st) current) = newTask current.
Proof.
  simpl. destruct (b _ (SelectTodos u)) as [[rows|] [e|] | e]; simpl;
    rewrite ?Synchronizer.report_newTask; split; reflexivity.
Qed.

(** What a created row makes of an add, in whatever state it resumes. *)
Lemma add_settles_created
      (u : str) (st current : State) (b : backend request) (created : Todo.t) :
  ~ blank (newTask st) ->
  b _ (InsertTodo (trim (newTask st)) u false) = Reply (Some created) None ->
  settle b (addTask u st) current
  = setNewTask [] (setTasks (created :: tasks st) current).
Proof.
  intros Hnb Hb.
  assert (Hne : trim (newTask st) <> []).
  { intros E. apply Hnb. now apply TrimFacts.trim_nil_iff. }
  destruct (Synchronizer.addTask_awaits u st Hne) as (k & -> & Hk).
  simpl. now rewrite Hb, Hk.
Qed.

(** X2. However the select settles and whatever happened meanwhile,
    [loadTasks] ends with [loading] false, so the view is the page and not
    the placeholder, also after a failure.  On success the collection is
    replaced by the rows returned, by the empty list when [data] is
    null; otherwise it is left as it is.  The input is never touched. *)
Theorem load_always_ends_loading (u : str) (st current : State) (b : backend request) :
  loading (settle b (loadTasks u st) current) = false
  /\ TodoView.render (settle b (loadTasks u st) current) <> TodoView.LoadingView
  /\ newTask (settle b (loadTasks u st) current) = newTask current
  /\ tasks (settle b (loadTasks u st) current)
     = match b _ (SelectTodos u) with
       | Reply (Some rows) None => rows
       | Reply None None => []
       | _ => tasks current
       end.
Proof.
  simpl. unfold TodoView.render.
  destruct (b _ (SelectTodos u)) as [[rows|] [e|] | e]; simpl;
    rewrite ?Synchronizer.report_tasks, ?Synchronizer.report_newTask;
    repeat split; discriminate.
Qed.

(** X3. Once the page is shown, no handler brings the placeholder back:
    if [loading] is false in the render a handler is called from and in
    the state it resumes in, it is false while the request is in flight
    and after the handler is over. *)
Theorem loading_never_returns
        (u : str) (a : action) (st current : State) (b : backend request) :
  loading st = false ->
  loading current = false ->
  loading (now (handle u a st)) = false
  /\ loading (settle b (handle u a st) current) = false.
Proof.
  intros Hst Hcur.
  assert (Hrep : forall e s, loading (report e s) = loading s).
  { intros e s. unfold report. now destruct (instanceof_Error e). }
  destruct a as [ | | id c | id]; simpl handle.
  - split; [exact Hst|]. apply load_settles_cells.
  - unfold addTask. destruct (negb (truthy (trim (newTask st)))); simpl.
    + now split.
    + split; [exact Hst|].
      destruct (b _ (InsertTodo (trim (newTask st)) u false)) as [[row|] [e|] | e];
        simpl; rewrite ?Hrep; assumption.
  - split; [exact Hst|]. simpl.
    destruct (b _ (UpdateCompleted id (negb c))) as [d [e|] | e];
      simpl; rewrite ?Hrep; assumption.
  - split; [exact Hst|]. simpl.
    destruct (b _ (DeleteTodo id)) as [d [e|] | e];
      simpl; rewrite ?Hrep; assumption.
Qed.

Lemma loading_never_returns_witness :
  loading (run (Sample.refusing _ (Sample.an_Error "offline"))
               (handle Sample.user (ClickDelete 2)
                       (Sample.showing Sample.two_rows "" ""))) = false.
Proof.
  apply (loading_never_returns Sample.user (ClickDelete 2)
           (Sample.showing Sample.two_rows "" "")
           (now (handle Sample.user (ClickDelete 2)
                        (Sample.showing Sample.two_rows "" "")))
           (Sample.refusing _ (Sample.an_Error "offline"))); reflexivity.
Defined.

(** X4. Load, toggle and delete never write the input: text typed but not
    submitted is the same while their request is in flight and after
    they are over, in every outcome. *)
Theorem typed_text_survives
        (u : str) (a : action) (st current : State) (b : backend request) :
  a <> Submit ->
  newTask (now (handle u a st)) = newTask st
  /\ newTask (settle b (handle u a st) current) = newTask current.
Proof.
  intros Ha.
  destruct a as [ | | id c | id]; simpl handle.
  - split; [reflexivity|]. apply load_settles_cells.
  - now elim Ha.
  - split; [reflexivity|]. simpl.
    destruct (b _ (UpdateCompleted id (negb c))) as [d [e|] | e];
      simpl; rewrite ?Synchronizer.report_newTask; reflexivity.
  - split; [reflexivity|]. simpl.
    destruct (b _ (DeleteTodo id)) as [d [e|] | e];
      simpl; rewrite ?Synchronizer.report_newTask; reflexivity.
Qed.

Lemma typed_text_survives_witness :
  newTask (run (Sample.accepting (Sample.row 7 "" false))
               (handle Sample.user (Tick 1 false)
                       (Sample.showing Sample.two_rows "Call m" "")))
  = lit "Call m".
Proof.
  apply (typed_text_survives Sample.user (Tick 1 false)
           (Sample.showing Sample.two_rows "Call m" "")
           (now (handle Sample.user (Tick 1 false)
                        (Sample.showing Sample.two_rows "Call m" "")))
           (Sample.accepting (Sample.row 7 "" false))).
  discriminate.
Defined.

(** X5. When the insert returns a row, [addTask] writes that row in front
    of the collection of the render it was called from and empties the
    input, whatever the state it resumes in: rows that arrived and text
    that was typed while the request was in flight are overwritten. *)
Theorem add_overwrites_what_happened_meanwhile
        (u : str) (st current : State) (b : backend request) (created : Todo.t) :
  ~ blank (newTask st) ->
  b _ (InsertTodo (trim (newTask st)) u false) = Reply (Some created) None ->
  tasks (settle b (addTask u st) current) = created :: tasks st
  /\ newTask (settle b (addTask u st) current) = []
  /\ error (settle b (addTask u st) current) = error current.
Proof.
  intros Hnb Hb.
  rewrite (add_settles_created u st current b created Hnb Hb). repeat split.
Qed.

Lemma add_overwrites_what_happened_meanwhile_witness :
  tasks (settle (Sample.accepting (Sample.row 7 "Buy milk" false))
                (addTask Sample.user (Sample.showing [] "Buy milk" ""))
                (Sample.showing Sample.two_rows "Pay" ""))
  = [Sample.row 7 "Buy milk" false]
  /\ newTask (settle (Sample.accepting (Sample.row 7 "Buy milk" false))
                     (addTask Sample.user (Sample.showing [] "Buy milk" ""))
                     (Sample.showing Sample.two_rows "Pay" ""))
     = [].
Proof.
  destruct (add_overwrites_what_happened_meanwhile Sample.user
              (Sample.showing [] "Buy milk" "")
              (Sample.showing Sample.two_rows "Pay" "")
              (Sample.accepting (Sample.row 7 "Buy milk" false))
              (Sample.row 7 "Buy milk" false)) as (H1 & H2 & _).
  - simpl. intros H. inversion H as [|? ? Hc _]. discriminate Hc.
  - reflexivity.
  - split; [exact H1 | exact H2].
Defined.

(** X6. Whatever the ids in the collection, the rows left while a delete
    is in flight are exactly the rows whose id is not the deleted one, so
    every row carrying the id goes and the length drops by the number of
    such rows.  An acknowledged delete then writes nothing at all. *)
Theorem delete_removes_every_match (st : State) (id : Z) :
  (forall t, In t (tasks (now (deleteTask id st)))
             <-> In t (tasks st) /\ Todo.id t <> id)
  /\ (List.length (tasks (now (deleteTask id st)))
      + count_occ Z.eq_dec (map Todo.id (tasks st)) id
      = List.length (tasks st))%nat
  /\ forall b current,
       succeeds b (deleteTask id st) ->
       settle b (deleteTask id st) current = current.
Proof.
  repeat split.
  - simpl in H. apply filter_In in H. tauto.
  - simpl in H. now apply (filter_keeps_no_match _ _ _ H).
  - intros [Hin Hne]. simpl. apply filter_In. split; [exact Hin|].
    now destruct (Z.eqb_spec (Todo.id t) id).
  - apply filter_length.
  - intros b current Hok. simpl in Hok |- *.
    destruct (Synchronizer.succeeded_inv _ Hok) as (d & ->). reflexivity.
Qed.

Lemma delete_removes_every_match_witness :
  settle (Sample.accepting (Sample.row 7 "" false))
         (deleteTask 2 (Sample.showing Sample.two_rows "" ""))
         (Sample.showing [Sample.row 1 "Buy milk" false] "x" "")
  = Sample.showing [Sample.row 1 "Buy milk" false] "x" "".
Proof.
  destruct (delete_removes_every_match (Sample.showing Sample.two_rows "" "") 2)
    as (_ & _ & H).
  apply H. reflexivity.
Defined.

(** X7. Two toggles called from the same render, both acknowledged: the
    one that settles last writes the map of the collection it was called
    with, so the row of the other toggle is back with its old flag,
    although the store has flipped both. *)
Theorem concurrent_toggles_lose_the_first
        (st : State) (b : backend request) (t1 t2 : Todo.t) :
  In t1 (tasks st) ->
  Todo.id t1 <> Todo.id t2 ->
  succeeds b (toggleTask (Todo.id t1) (Todo.completed t1) st) ->
  succeeds b (toggleTask (Todo.id t2) (Todo.completed t2) st) ->
  In (with_completed (negb (Todo.completed t1)) t1)
     (tasks (run b (toggleTask (Todo.id t1) (Todo.completed t1) st)))
  /\ tasks (settle b (toggleTask (Todo.id t2) (Todo.completed t2) st)
                   (run b (toggleTask (Todo.id t1) (Todo.completed t1) st)))
     = tasks (run b (toggleTask (Todo.id t2) (Todo.completed t2) st))
  /\ In t1 (tasks (settle b (toggleTask (Todo.id t2) (Todo.completed t2) st)
                          (run b (toggleTask (Todo.id t1) (Todo.completed t1) st)))).
Proof.
  intros Hin Hne Hok1 Hok2.
  unfold run. rewrite !toggle_settles by assumption. simpl.
  repeat split.
  - apply in_map_iff. exists t1. split; [|exact Hin].
    unfold flip. now rewrite Z.eqb_refl.
  - apply in_map_iff. exists t1. split; [|exact Hin].
    unfold flip. destruct (Z.eqb_spec (Todo.id t1) (Todo.id t2)); [contradiction|].
    reflexivity.
Qed.

Lemma concurrent_toggles_lose_the_first_witness :
  tasks (settle (Sample.accepting (Sample.row 7 "" false))
                (toggleTask 2 false (Sample.showing Sample.two_rows "" ""))
                (run (Sample.accepting (Sample.row 7 "" false))
                     (toggleTask 1 false (Sample.showing Sample.two_rows "" ""))))
  = [Sample.row 1 "Buy milk" false; Sample.row 2 "Pay rent" true].
Proof.
  destruct (concurrent_toggles_lose_the_first
              (Sample.showing Sample.two_rows "" "")
              (Sample.accepting (Sample.row 7 "" false))
              (Sample.row 1 "Buy milk" false) (Sample.row 2 "Pay rent" false))
    as (_ & H & _).
  - simpl. auto.
  - discriminate.
  - reflexivity.
  - reflexivity.
  - simpl Todo.id in H. simpl Todo.completed in H. rewrite H. reflexivity.
Defined.

(** X8. Two acknowledged toggles of rows with different ids, the second
    called from the render that shows the first: both flips are in the
    collection, and the order of the two makes no difference. *)
Theorem sequential_toggles_commute
        (st : State) (b : backend request) (id1 id2 : Z) (c1 c2 : bool) :
  id1 <> id2 ->
  (forall id c s, succeeds b (toggleTask id c s)) ->
  tasks (run b (toggleTask id2 c2 (run b (toggleTask id1 c1 st))))
  = map (flip id2 c2) (map (flip id1 c1) (tasks st))
  /\ tasks (run b (toggleTask id2 c2 (run b (toggleTask id1 c1 st))))
     = tasks (run b (toggleTask id1 c1 (run b (toggleTask id2 c2 st)))).
Proof.
  intros Hne Hok.
  unfold run. rewrite !toggle_settles by apply Hok. simpl.
  split; [reflexivity|].
  rewrite !map_map. apply map_ext. intros t.
  now apply flip_commutes; congruence.
Qed.

Lemma sequential_toggles_commute_witness :
  tasks (run (Sample.accepting (Sample.row 7 "" false))
             (toggleTask 2 false
                (run (Sample.accepting (Sample.row 7 "" false))
                     (toggleTask 1 false (Sample.showing Sample.two_rows "" "")))))
  = tasks (run (Sample.accepting (Sample.row 7 "" false))
               (toggleTask 1 false
                  (run (Sample.accepting (Sample.row 7 "" false))
                       (toggleTask 2 false (Sample.showing Sample.two_rows "" ""))))).
Proof.
  apply (sequential_toggles_commute (Sample.showing Sample.two_rows "" "")
           (Sample.accepting (Sample.row 7 "" false)) 1 2 false false).
  - discriminate.
  - reflexivity.
Defined.

(** X9. With unique ids, ticking the checkbox of a row and, once that is
    acknowledged and rendered, ticking it again gives back the collection
    one started with. *)
Theorem toggle_twice_restores (st : State) (b : backend request) (t : Todo.t) :
  In t (tasks st) ->
  unique_ids (tasks st) ->
  (forall id c s, succeeds b (toggleTask id c s)) ->
  tasks (run b (toggleTask (Todo.id t) (negb (Todo.completed t))
                   (run b (toggleTask (Todo.id t) (Todo.completed t) st))))
  = tasks st.
Proof.
  intros Hin Huniq Hok.
  unfold run. rewrite !toggle_settles by apply Hok. simpl.
  destruct (split_at_row _ _ Huniq Hin) as (before & after & Hsplit & Hothers).
  rewrite Hsplit.
  rewrite (map_flip_row before after t (Todo.completed t) Hothers).
  change (Todo.id t)
    with (Todo.id (with_completed (negb (Todo.completed t)) t)) at 1.
  rewrite map_flip_row.
  - rewrite negb_involutive. now destruct t.
  - exact Hothers.
Qed.

Lemma toggle_twice_restores_witness :
  tasks (run (Sample.accepting (Sample.row 7 "" false))
             (toggleTask 2 false
                (run (Sample.accepting (Sample.row 7 "" false))
                     (toggleTask 2 true (Sample.showing Cases.three_rows "" "")))))
  = Cases.three_rows.
Proof.
  apply (toggle_twice_restores (Sample.showing Cases.three_rows "" "")
           (Sample.accepting (Sample.row 7 "" false))
           (Sample.row 2 "Pay rent" true)).
  - simpl. auto.
  - unfold unique_ids. simpl. repeat constructor; simpl; intuition discriminate.
  - reflexivity.
Defined.

(** X10. With unique ids, an acknowledged toggle of a row leaves the
    number of tasks as it is and moves the number of completed ones by
    exactly one: up for a row that was open, down for one that was
    completed. *)
Theorem toggle_moves_one_task (st : State) (b : backend request) (t : Todo.t) :
  In t (tasks st) ->
  unique_ids (tasks st) ->
  succeeds b (toggleTask (Todo.id t) (Todo.completed t) st) ->
  totalCount (tasks (run b (toggleTask (Todo.id t) (Todo.completed t) st)))
  = totalCount (tasks st)
  /\ (completedCount (tasks (run b (toggleTask (Todo.id t) (Todo.completed t) st)))
      + (if Todo.completed t then 1 else 0)
      = completedCount (tasks st) + (if Todo.completed t then 0 else 1))%nat.
Proof.
  intros Hin Huniq Hok.
  unfold run. rewrite toggle_settles by assumption. simpl.
  destruct (split_at_row _ _ Huniq Hin) as (before & after & Hsplit & Hothers).
  rewrite Hsplit, (map_flip_row before after t (Todo.completed t) Hothers).
  unfold totalCount. rewrite !length_app. simpl. split; [reflexivity|].
  rewrite !completedCount_app, !completedCount_cons. simpl.
  destruct (Todo.completed t); simpl; lia.
Qed.

Lemma toggle_moves_one_task_witness :
  completedCount
    (tasks (run (Sample.accepting (Sample.row 7 "" false))
                (toggleTask 1 false (Sample.showing Cases.three_rows "" ""))))
  = 2%nat.
Proof.
  destruct (toggle_moves_one_task (Sample.showing Cases.three_rows "" "")
              (Sample.accepting (Sample.row 7 "" false))
              (Sample.row 1 "Buy milk" false)) as (_ & H).
  - simpl. auto.
  - unfold unique_ids. simpl. repeat constructor; simpl; intuition discriminate.
  - reflexivity.
  - revert H. vm_compute. intros H. exact H.
Defined.

(** X11. With unique ids, while the delete of a row is in flight both
    counters have dropped by that row: there is one task less, and one
    completed task less exactly when the row was completed. *)
Theorem delete_lowers_the_counts (st : State) (t : Todo.t) :
  In t (tasks st) ->
  unique_ids (tasks st) ->
  S (totalCount (tasks (now (deleteTask (Todo.id t) st)))) = totalCount (tasks st)
  /\ (completedCount (tasks (now (deleteTask (Todo.id t) st)))
      + (if Todo.completed t then 1 else 0)
      = completedCount (tasks st))%nat.
Proof.
  intros Hin Huniq.
  destruct (split_at_row _ _ Huniq Hin) as (before & after & Hsplit & Hothers).
  simpl. rewrite Hsplit.
  change (filter (fun task => negb (Todo.id task =? Todo.id t)%Z) (before ++ t :: after))
    with (filter (keeps (Todo.id t)) (before ++ t :: after)).
  rewrite (filter_drops_row before after t Hothers).
  unfold totalCount. rewrite !length_app. simpl. split; [lia|].
  rewrite !completedCount_app, completedCount_cons. lia.
Qed.

Lemma delete_lowers_the_counts_witness :
  totalCount (tasks (now (deleteTask 2 (Sample.showing Cases.three_rows "" "")))) = 2%nat
  /\ completedCount (tasks (now (deleteTask 2 (Sample.showing Cases.three_rows "" "")))) = 0%nat.
Proof.
  destruct (delete_lowers_the_counts (Sample.showing Cases.three_rows "" "")
              (Sample.row 2 "Pay rent" true)) as (H1 & H2).
  - simpl. auto.
  - unfold unique_ids. simpl. repeat constructor; simpl; intuition discriminate.
  - revert H1 H2. vm_compute. intros H1 H2. split; congruence.
Defined.

(** X12. A delete is in flight; text is typed and submitted from the
    render that shows the filtered list, and the store creates the row;
    then the delete fails.  The rollback writes the collection of before
    the delete: the created row, which was on the page, is gone from it
    although the store has it. *)
Theorem failed_delete_discards_an_add
        (u : str) (st : State) (id : Z) (typed : str)
        (b : backend request) (created : Todo.t) :
  ~ blank typed ->
  b _ (InsertTodo (trim typed) u false) = Reply (Some created) None ->
  fails b (deleteTask id st) ->
  ~ In (Todo.id created) (map Todo.id (tasks st)) ->
  In created
     (tasks (run b (addTask u (handleInputChange typed (now (deleteTask id st))))))
  /\ tasks (settle b (deleteTask id st)
                   (run b (addTask u (handleInputChange typed (now (deleteTask id st))))))
     = tasks st
  /\ ~ In created
       (tasks (settle b (deleteTask id st)
                      (run b (addTask u (handleInputChange typed (now (deleteTask id st))))))).
Proof.
  intros Hnb Hb Hf Hfresh.
  assert (Hback : forall current, tasks (settle b (deleteTask id st) current) = tasks st).
  { intros current. simpl in Hf |- *.
    destruct (Synchronizer.failed_inv _ Hf) as [(d & e & ->) | (e & ->)];
      now rewrite Synchronizer.report_tasks. }
  repeat split.
  - unfold run.
    rewrite (add_settles_created u
               (handleInputChange typed (now (deleteTask id st)))
               (now (addTask u (handleInputChange typed (now (deleteTask id st)))))
               b created Hnb Hb).
    now left.
  - apply Hback.
  - rewrite Hback. intros Hin. apply Hfresh. now apply in_map.
Qed.

Lemma failed_delete_discards_an_add_witness :
  tasks (settle (Cases.refusing_deletes [] (Sample.row 7 "Call mum" false)
                   (Sample.an_Error "offline"))
                (deleteTask 2 (Sample.showing Sample.two_rows "" ""))
                (run (Cases.refusing_deletes [] (Sample.row 7 "Call mum" false)
                        (Sample.an_Error "offline"))
                     (addTask Sample.user
                        (handleInputChange (lit "Call mum")
                           (now (deleteTask 2 (Sample.showing Sample.two_rows "" "")))))))
  = Sample.two_rows.
Proof.
  apply (failed_delete_discards_an_add Sample.user
           (Sample.showing Sample.two_rows "" "") 2 (lit "Call mum")
           (Cases.refusing_deletes [] (Sample.row 7 "Call mum" false)
              (Sample.an_Error "offline"))
           (Sample.row 7 "Call mum" false)).
  - intros H. inversion H as [|? ? Hc _]. discriminate Hc.
  - reflexivity.
  - simpl. unfold failed. simpl. discriminate.
  - simpl. intuition discriminate.
Defined.

Lemma unique_ids_invariant_witness :
  unique_ids
    (tasks (run (Sample.accepting (Sample.row 7 "Call mum" false))
                (handle Sample.user Submit
                        (Sample.showing Sample.two_rows "Call mum" "")))).
Proof.
  apply (Synchronizer.unique_ids_invariant Sample.user Submit
           (Sample.showing Sample.two_rows "Call mum" "")
           (now (handle Sample.user Submit
                        (Sample.showing Sample.two_rows "Call mum" "")))
           (Sample.accepting (Sample.row 7 "Call mum" false))).
  - unfold unique_ids. simpl. repeat constructor; simpl; intuition discriminate.
  - unfold unique_ids. simpl. repeat constructor; simpl; intuition discriminate.
  - split.
    + intros u rows H. injection H as <-. repeat constructor. simpl. tauto.
    + intros text u c row H. injection H as <-. simpl. intuition discriminate.
Defined.

End Composition.

(* ===================================================================== *)
(** ** What the task view shows *)
(* ===================================================================== *)

Module Rendering.

Import TodoApp RowFacts TodoView.

Example footers :
  footer_text 2 2 = party_popper ++ lit " All tasks completed! Great job!"
  /\ footer_text 1 2 = lit "Keep going! 1 task remaining"
  /\ footer_text 0 12 = lit "Keep going! 12 tasks remaining".
Proof. repeat split. Qed.

Lemma completed_plus_open (ts : list Todo.t) :
  (completedCount ts + List.length (filter open ts) = totalCount ts)%nat.
Proof.
  unfold completedCount, totalCount, open.
  induction ts as [|t ts IH]; simpl.
  - reflexivity.
  - destruct (Todo.completed t); simpl; lia.
Qed.

Lemma no_open_iff_all_completed (ts : list Todo.t) :
  filter open ts = [] <-> Forall (fun t => Todo.completed t = true) ts.
Proof.
  unfold open. induction ts as [|t ts IH]; simpl.
  - split; constructor.
  - destruct (Todo.completed t) eqn:E; simpl; split; intros H.
    + constructor; [exact E | now apply IH].
    + apply IH. now inversion H.
    + discriminate H.
    + inversion H. congruence.
Qed.

Lemma keep_going_is_not_all_done (n : Z) : keep_going n <> all_done.
Proof. unfold keep_going, all_done. simpl. discriminate. Qed.

Lemma footers_differ (n : Z) : Some (keep_going n) <> Some all_done.
Proof.
  intros H. apply (keep_going_is_not_all_done n).
  exact (f_equal (fun o => match o with Some x => x | None => [] end) H).
Qed.

Lemma shown_rows_of_page (st : State) (p : page) :
  render st = Page p -> shown_rows p = map row_of (tasks st).
Proof.
  unfold render. destruct (loading st); [discriminate|].
  intros H. injection H as <-. unfold shown_rows. simpl.
  now destruct (tasks st).
Qed.

Lemma page_of (st : State) :
  loading st = false -> exists p, render st = Page p.
Proof. unfold render. intros ->. eexists. reflexivity. Qed.

(** X13. The placeholder is shown exactly while [loading] is set.  On
    the page, the percentage badge, the progress bar and the footer are
    there exactly when the collection is not empty (so the percentage is
    never shown for a division by zero), the empty state exactly when it
    is; the rows are those of the collection, in its order; the notice
    is there exactly when the error cell is not empty. *)
Theorem page_sections_follow_the_collection (st : State) :
  (loading st = true -> render st = LoadingView)
  /\ (loading st = false ->
      exists p,
        render st = Page p
        /\ input p = newTask st
        /\ shown_rows p = map row_of (tasks st)
        /\ (notice p = None <-> error st = [])
        /\ (tasks st = [] ->
            listing p = EmptyState /\ badge p = None /\ bar p = None
            /\ footer p = None)
        /\ (tasks st <> [] ->
            listing p = Rows (map row_of (tasks st))
            /\ badge p = Some (completionPercentage (tasks st))
            /\ bar p = Some (completionPercentage (tasks st))
            /\ footer p <> None)).
Proof.
  split; intros Hl.
  - unfold render. now rewrite Hl.
  - destruct (page_of st Hl) as (p & Hp). exists p.
    split; [exact Hp|].
    split; [|split; [now apply shown_rows_of_page|]];
      unfold render in Hp; rewrite Hl in Hp; injection Hp as <-; simpl.
    + reflexivity.
    + split.
      * destruct (error st); simpl; split; intros H;
          try reflexivity; discriminate H.
      * split.
        -- intros ->. repeat split.
        -- intros Hne. destruct (tasks st) as [|t ts]; [now elim Hne|].
           repeat split. discriminate.
Qed.

Lemma page_sections_follow_the_collection_witness :
  exists p,
    render (Sample.showing Sample.two_rows "" "") = Page p
    /\ badge p = Some 0%float
    /\ notice p = None.
Proof.
  destruct (page_sections_follow_the_collection (Sample.showing Sample.two_rows "" ""))
    as (_ & H).
  destruct (H eq_refl) as (p & Hp & _ & _ & Hn & _ & Hrows).
  exists p. split; [exact Hp|]. split.
  - destruct Hrows as (_ & Hb & _); [discriminate|]. exact Hb.
  - now apply Hn.
Defined.

(** X14. On a page with tasks, the footer congratulates exactly when
    every task is completed.  Otherwise it names the number of tasks
    that are not completed, which is at least one, and the two texts
    differ. *)
Theorem footer_tells_what_is_left (st : State) (p : page) :
  render st = Page p ->
  tasks st <> [] ->
  (footer p = Some all_done
   <-> Forall (fun t => Todo.completed t = true) (tasks st))
  /\ (forall n,
         n = List.length (filter open (tasks st)) ->
         n <> 0%nat ->
         footer p = Some (keep_going (Z.of_nat n))
         /\ footer p <> Some all_done).
Proof.
  intros Hp Hne.
  unfold render in Hp. destruct (loading st); [discriminate|].
  injection Hp as <-. simpl.
  assert (Htotal : (0 <? totalCount (tasks st))%nat = true).
  { destruct (tasks st); [now elim Hne | reflexivity]. }
  rewrite Htotal. unfold footer_text.
  pose proof (completed_plus_open (tasks st)) as Hsum.
  pose proof (no_open_iff_all_completed (tasks st)) as Hall.
  destruct (Nat.eqb_spec (completedCount (tasks st)) (totalCount (tasks st)))
    as [E|NE].
  - assert (Hnil : filter open (tasks st) = []).
    { apply length_zero_iff_nil. lia. }
    split.
    + split; intros _; [now apply Hall | reflexivity].
    + intros n -> Hn. rewrite Hnil in Hn. now elim Hn.
  - split.
    + split; intros H.
      * now elim (footers_differ _ H).
      * apply Hall in H. rewrite H in Hsum. simpl in Hsum. lia.
    + intros n -> _. split.
      * do 2 f_equal. lia.
      * apply footers_differ.
Qed.

Lemma footer_tells_what_is_left_witness :
  exists p,
    render (Sample.showing Cases.three_rows "" "") = Page p
    /\ footer p = Some (lit "Keep going! 2 tasks remaining").
Proof.
  eexists. split; [reflexivity|].
  destruct (footer_tells_what_is_left (Sample.showing Cases.three_rows "" "") _ eq_refl)
    as (_ & H).
  - discriminate.
  - destruct (H 2%nat eq_refl) as (H' & _); [discriminate|]. exact H'.
Defined.

(** X15. With unique ids, ticking the checkbox of a row on the page
    and having it acknowledged gives a page with the same rows in the
    same places, except that this row is now checked if it was not, and
    the other way round; its key and text are the same. *)
Theorem ticking_a_row_checks_that_row
        (u : str) (st : State) (b : backend request) (p : page) (r : row) :
  render st = Page p ->
  unique_ids (tasks st) ->
  In r (shown_rows p) ->
  succeeds b (handle u (onChange r) st) ->
  exists before after r' p',
    shown_rows p = before ++ r :: after
    /\ render (run b (handle u (onChange r) st)) = Page p'
    /\ shown_rows p' = before ++ r' :: after
    /\ key r' = key r
    /\ text r' = text r
    /\ checked r' = negb (checked r)
    /\ line_through r' = negb (line_through r).
Proof.
  intros Hp Huniq Hin Hok.
  rewrite (shown_rows_of_page st p Hp) in Hin |- *.
  apply in_map_iff in Hin. destruct Hin as (t & <- & Hin).
  simpl onChange in Hok |- *. simpl handle in Hok |- *.
  destruct (split_at_row _ _ Huniq Hin) as (before & after & Hsplit & Hothers).
  assert (Hl : loading st = false).
  { unfold render in Hp. now destruct (loading st). }
  unfold run. rewrite Composition.toggle_settles by assumption. simpl now.
  destruct (page_of (setTasks (map (flip (Todo.id t) (Todo.completed t)) (tasks st))
                              (setError [] st)) Hl) as (p' & Hp').
  exists (map row_of before), (map row_of after),
         (row_of (with_completed (negb (Todo.completed t)) t)), p'.
  split; [now rewrite Hsplit, map_app|].
  split; [exact Hp'|].
  split; [|repeat split].
  rewrite (shown_rows_of_page _ _ Hp'). simpl tasks.
  rewrite Hsplit, (map_flip_row before after t (Todo.completed t) Hothers).
  now rewrite map_app.
Qed.

Lemma ticking_a_row_checks_that_row_witness :
  exists before after r' p',
    render (run (Sample.accepting (Sample.row 7 "" false))
                (handle Sample.user
                        (onChange (row_of (Sample.row 2 "Pay rent" false)))
                        (Sample.showing Sample.two_rows "" ""))) = Page p'
    /\ shown_rows p' = before ++ r' :: after
    /\ key r' = 2%Z
    /\ checked r' = true.
Proof.
  destruct (ticking_a_row_checks_that_row Sample.user
              (Sample.showing Sample.two_rows "" "")
              (Sample.accepting (Sample.row 7 "" false))
              _ (row_of (Sample.row 2 "Pay rent" false)) eq_refl)
    as (before & after & r' & p' & _ & H1 & H2 & H3 & _ & H4 & _).
  - unfold unique_ids. simpl. repeat constructor; simpl; intuition discriminate.
  - simpl. auto.
  - reflexivity.
  - exists before, after, r', p'. repeat split; assumption.
Defined.

(** X16. With unique ids, clicking the delete button of a row takes that
    row off the page at once, the others staying in their places; if the
    delete then fails, the page shows the rows it showed before the
    click. *)
Theorem deleting_a_row_takes_it_off_the_page
        (u : str) (st : State) (b : backend request) (p : page) (r : row) :
  render st = Page p ->
  unique_ids (tasks st) ->
  In r (shown_rows p) ->
  exists before after p',
    shown_rows p = before ++ r :: after
    /\ render (now (handle u (onClick r) st)) = Page p'
    /\ shown_rows p' = before ++ after
    /\ (fails b (handle u (onClick r) st) ->
        exists p'',
          render (run b (handle u (onClick r) st)) = Page p''
          /\ shown_rows p'' = shown_rows p).
Proof.
  intros Hp Huniq Hin.
  rewrite (shown_rows_of_page st p Hp) in Hin |- *.
  apply in_map_iff in Hin. destruct Hin as (t & <- & Hin).
  simpl onClick. simpl handle.
  destruct (split_at_row _ _ Huniq Hin) as (before & after & Hsplit & Hothers).
  assert (Hl : loading st = false).
  { unfold render in Hp. now destruct (loading st). }
  destruct (page_of (now (deleteTask (Todo.id t) st)) Hl) as (p' & Hp').
  exists (map row_of before), (map row_of after), p'.
  split; [now rewrite Hsplit, map_app|].
  split; [exact Hp'|].
  split.
  - rewrite (shown_rows_of_page _ _ Hp'). simpl tasks. rewrite Hsplit.
    change (filter (fun task => negb (Todo.id task =? Todo.id t)%Z) (before ++ t :: after))
      with (filter (keeps (Todo.id t)) (before ++ t :: after)).
    now rewrite (filter_drops_row before after t Hothers), map_app.
  - intros Hf.
    assert (Hl' : loading (run b (deleteTask (Todo.id t) st)) = false).
    { unfold run. simpl.
      destruct (b _ (DeleteTodo (Todo.id t))) as [d [e|] | e]; simpl;
        try unfold report; try destruct (instanceof_Error e); exact Hl. }
    destruct (page_of _ Hl') as (p'' & Hp''). exists p''.
    split; [exact Hp''|].
    rewrite (shown_rows_of_page _ _ Hp''). f_equal.
    unfold run. simpl in Hf |- *.
    destruct (Synchronizer.failed_inv _ Hf) as [(d & e & ->) | (e & ->)];
      now rewrite Synchronizer.report_tasks.
Qed.

Lemma deleting_a_row_takes_it_off_the_page_witness :
  exists before after p',
    render (now (handle Sample.user
                        (onClick (row_of (Sample.row 1 "Buy milk" false)))
                        (Sample.showing Sample.two_rows "" ""))) = Page p'
    /\ shown_rows p' = before ++ after
    /\ List.length (before ++ after) = 1%nat.
Proof.
  destruct (deleting_a_row_takes_it_off_the_page Sample.user
              (Sample.showing Sample.two_rows "" "")
              (Sample.accepting (Sample.row 7 "" false))
              _ (row_of (Sample.row 1 "Buy milk" false)) eq_refl)
    as (before & after & p' & H0 & H1 & H2 & _).
  - unfold unique_ids. simpl. repeat constructor; simpl; intuition discriminate.
  - simpl. auto.
  - exists before, after, p'. repeat split; try assumption.
    apply (f_equal (@List.length row)) in H0.
    rewrite length_app in H0 |- *. simpl in H0. lia.
Defined.

End Rendering.

(* ===================================================================== *)
(** ** The credential form *)
(* ===================================================================== *)

Module Form.

Import Auth.

(** X17. While the credentials are in flight the submit button is
    disabled and reads "Loading...", and the notice of an earlier attempt
    is gone.  When the handler is over, in every outcome and whatever
    happened meanwhile, the button is enabled again, and the handler has
    not written the e-mail, the password or the mode. *)
Theorem submission_disables_the_button_meanwhile
        (st current : State) (b : backend request) :
  AuthView.submit_disabled (AuthView.render (now (handleAuth st))) = true
  /\ AuthView.submit_label (AuthView.render (now (handleAuth st))) = lit "Loading..."
  /\ AuthView.notice (AuthView.render (now (handleAuth st))) = None
  /\ AuthView.submit_disabled (AuthView.render (settle b (handleAuth st) current)) = false
  /\ email (settle b (handleAuth st) current) = email current
  /\ password (settle b (handleAuth st) current) = password current
  /\ isSignUp (settle b (handleAuth st) current) = isSignUp current.
Proof.
  unfold handleAuth. simpl.
  destruct (b _ (if isSignUp st
                 then SignUp (email st) (password st)
                 else SignInWithPassword (email st) (password st)))
    as [d [e|] | e]; simpl;
    try destruct (instanceof_Error e); destruct (isSignUp st); repeat split.
Qed.

(** X18. A failed submission always leaves a notice to show: the message
    of the [Error] thrown, and "An unexpected error occurred" for any
    other value.  The notice is empty only for an [Error] whose message
    is empty. *)
Theorem failed_submission_always_says_something
        (st current : State) (b : backend request) (e : thrown) :
  thrown_by b (handleAuth st) = Some e ->
  error (settle b (handleAuth st) current)
  = (if instanceof_Error e then message e else AuthView.fallback_notice)
  /\ (instanceof_Error e = false \/ message e <> [] ->
      AuthView.notice (AuthView.render (settle b (handleAuth st) current))
      = Some (error (settle b (handleAuth st) current)))
  /\ alerts (settle b (handleAuth st) current) = alerts current.
Proof.
  unfold handleAuth. simpl.
  destruct (b _ (if isSignUp st
                 then SignUp (email st) (password st)
                 else SignInWithPassword (email st) (password st)))
    as [d [e'|] | e']; simpl; intros H; try discriminate H;
    injection H as ->;
    (destruct (instanceof_Error e) eqn:Hi; simpl;
     [ repeat split; intros [H | H]; [discriminate H|];
       destruct (message e); [now elim H | reflexivity]
     | repeat split ]).
Qed.

Lemma failed_submission_always_says_something_witness :
  error (run (Sample.refusing _ (Sample.a_plain_object "rate limited"))
             (handleAuth (Cases.filled false)))
  = lit "An unexpected error occurred"
  /\ error (run (Sample.refusing _ (Sample.an_Error "Invalid login credentials"))
                (handleAuth (Cases.filled false)))
     = lit "Invalid login credentials".
Proof.
  split.
  - destruct (failed_submission_always_says_something (Cases.filled false)
                (now (handleAuth (Cases.filled false)))
                (Sample.refusing _ (Sample.a_plain_object "rate limited"))
                (Sample.a_plain_object "rate limited") eq_refl) as (H & _).
    exact H.
  - destruct (failed_submission_always_says_something (Cases.filled false)
                (now (handleAuth (Cases.filled false)))
                (Sample.refusing _ (Sample.an_Error "Invalid login credentials"))
                (Sample.an_Error "Invalid login credentials") eq_refl) as (H & _).
    exact H.
Defined.

(** X19. The handler alerts once, with the confirmation text, exactly
    when the form was in sign-up mode when it was submitted and the call
    did not fail; the mode the form is in when the answer arrives does
    not matter.  A sign-in never alerts, nor does a failure.  A call
    that did not fail writes no notice. *)
Theorem alert_only_after_a_sign_up
        (st current : State) (b : backend request) :
  alerts (settle b (handleAuth st) current)
  = match thrown_by b (handleAuth st) with
    | None => if isSignUp st then alerts current ++ [AuthView.sign_up_alert] else alerts current
    | Some _ => alerts current
    end
  /\ (thrown_by b (handleAuth st) = None ->
      error (settle b (handleAuth st) current) = error current
      /\ error (run b (handleAuth st)) = []).
Proof.
  unfold run, handleAuth. simpl.
  destruct (b _ (if isSignUp st
                 then SignUp (email st) (password st)
                 else SignInWithPassword (email st) (password st)))
    as [d [e|] | e]; simpl;
    try destruct (instanceof_Error e); destruct (isSignUp st); simpl;
    (split; [reflexivity | intros Hok; try discriminate Hok; split; reflexivity]).
Qed.

Lemma alert_only_after_a_sign_up_witness :
  alerts (settle (Sample.signing_in (Session.Make Sample.user))
                 (handleAuth (Cases.filled true)) (Cases.filled false))
  = [AuthView.sign_up_alert]
  /\ error (run (Sample.signing_in (Session.Make Sample.user))
                (handleAuth (Cases.filled true))) = [].
Proof.
  destruct (alert_only_after_a_sign_up (Cases.filled true) (Cases.filled false)
              (Sample.signing_in (Session.Make Sample.user))) as (H1 & _).
  destruct (alert_only_after_a_sign_up (Cases.filled true) (Cases.filled true)
              (Sample.signing_in (Session.Make Sample.user))) as (_ & H2).
  split; [exact H1|]. now apply H2.
Defined.

(** X20. Switching the mode twice gives the mode back and keeps what
    was typed, but the notice is lost: the state is the one before with
    the error emptied.  One switch changes the title and the label of
    the submit button and shows or hides the password hint. *)
Theorem toggling_the_mode_twice (st : State) :
  toggleMode (toggleMode st) = setError [] st
  /\ isSignUp (toggleMode st) = negb (isSignUp st)
  /\ AuthView.notice (AuthView.render (toggleMode st)) = None
  /\ AuthView.title (AuthView.render (toggleMode st))
     <> AuthView.title (AuthView.render st)
  /\ (AuthView.hint (AuthView.render (toggleMode st)) = None
      <-> AuthView.hint (AuthView.render st) <> None).
Proof.
  unfold toggleMode, setError, setIsSignUp, AuthView.render. simpl.
  rewrite negb_involutive.
  destruct (isSignUp st); simpl; repeat split;
    try discriminate; try (intros H; now elim H).
Qed.

End Form.

(* ===================================================================== *)
(** ** The gate over a run of events *)
(* ===================================================================== *)

Module GateRuns.

Import Gate.

Lemma replay_app (es : list event) (st : State) :
  App.loading (app (replay es st))
  = App.loading (app st) && negb (existsb session_resolved es)
  /\ App.session (app (replay es st)) = last_notified es (App.session (app st)).
Proof.
  unfold replay, last_notified.
  revert st. induction es as [|e es IH]; intros st; simpl.
  - now rewrite andb_true_r.
  - destruct (IH (step e st)) as (Hl & Hs). rewrite Hl, Hs.
    destruct e; simpl; split; try reflexivity.
    now rewrite andb_false_r.
Qed.

(** X21. From the start of the page, the placeholder is shown after a
    run of events exactly when the promise of the initial session has
    not resolved in it: calls of the listener, with or without a
    session, do not end it, and nothing brings it back. *)
Theorem placeholder_until_the_session_resolves (es : list event) :
  App.render (app (replay es initial)) = App.LoadingView
  <-> existsb session_resolved es = false.
Proof.
  destruct (replay_app es initial) as (Hl & _).
  unfold App.render. rewrite Hl. simpl.
  destruct (existsb session_resolved es); simpl.
  - split; [|discriminate].
    now destruct (App.session (app (replay es initial))).
  - tauto.
Qed.

(** X22. After a run of events the session is the one carried by the
    last notification in it, whichever of the two kinds it was (a late
    resolution of the initial session overrides what the listener had
    set); once the initial session has resolved, the gate shows the form
    if that session is none and the task view of that session
    otherwise. *)
Theorem last_notification_decides (es : list event) (st : State) :
  App.session (app (replay es st)) = last_notified es (App.session (app st))
  /\ (existsb session_resolved es = true ->
      App.render (app (replay es st))
      = match last_notified es (App.session (app st)) with
        | None => App.AuthView
        | Some s => App.TodoAppView s
        end).
Proof.
  destruct (replay_app es st) as (Hl & Hs).
  split; [exact Hs|].
  intros Hres. unfold App.render.
  rewrite Hl, Hs, Hres, andb_false_r. reflexivity.
Qed.

Lemma last_notification_decides_witness :
  App.render
    (app (replay [AuthStateChanged (Some (Session.Make Sample.user));
                  SessionResolved None;
                  CredentialsSubmitted (Sample.signing_in (Session.Make Sample.user))]
                 initial))
  = App.AuthView.
Proof.
  destruct (last_notification_decides
              [AuthStateChanged (Some (Session.Make Sample.user));
               SessionResolved None;
               CredentialsSubmitted (Sample.signing_in (Session.Make Sample.user))]
              initial) as (_ & H).
  now apply H.
Defined.

End GateRuns.

(* ===================================================================== *)
(** ** The client module *)
(* ===================================================================== *)

Module ClientModule.

Import Supabase.



End ClientModule.
